(** * Request and response signatures of the open-api SDK

    A shallow embedding of [sign/signature_builder.go]: the canonical text of
    a parameter map, the signature of a request or a response body, and the
    validation of an incoming request or response.

    Go values are modelled as the code has them: a [string] is a sequence of
    bytes (Rocq's [string]), [int64] and [int] are integers in [Z] whose
    wrap-around is written out (the model fixes a 64-bit platform, so [int]
    is 64 bits wide), [map[string]string] is a [gmap string string], an
    [http.Header] is a [gmap string (list string)], and a body is a reader
    whose pending bytes are consumed by [io.ReadAll].  A function that
    changes the request or the response it is given returns it as the call
    leaves it, also when it returns an error; [time.Now().Unix()] is an
    argument [now] of the functions that read the clock.  Pointers, header
    maps and bodies are taken to be there (Go panics on a nil one). *)

From Stdlib Require Import ZArith String Ascii List Lia Bool.
From Stdlib Require Import Sorting.Sorted Sorting.Permutation Sorting.Mergesort.
From Stdlib Require Import Structures.Orders Structures.OrderedTypeEx.
From stdpp Require Import gmap strings list fin_maps.

Open Scope string_scope.
Open Scope list_scope.
Open Scope Z_scope.

(** ** Strings as Go sees them *)

Module GoString.

(** [strings.HasPrefix s p]. *)
Fixpoint HasPrefix (s p : string) : bool :=
  match p with
  | EmptyString => true
  | String c p' =>
      match s with
      | EmptyString => false
      | String d s' => Ascii.eqb c d && HasPrefix s' p'
      end
  end.

(** [strings.Contains s sub]: [sub] occurs in [s] at some offset. *)
Fixpoint Contains (s sub : string) : bool :=
  HasPrefix s sub ||
  match s with
  | EmptyString => false
  | String _ s' => Contains s' sub
  end.

(** The byte values of a string, as [[]byte(s)] yields them. *)
Definition bytes (s : string) : list Z :=
  List.map (fun c => Z.of_N (N_of_ascii c)) (list_ascii_of_string s).

(** A string is empty: the test [s == ""] of the code. *)
Definition is_empty (s : string) : bool :=
  match s with EmptyString => true | _ => false end.

End GoString.

(** ** crypto/sha256 and the [%x] verb

    [SignatureBuilder.hash] is [fmt.Sprintf("%x", sha256.Sum256([]byte(text)))].
    SHA-256 is written out after FIPS 180-4 on 32-bit words held in [Z]. *)

Module SHA256.

Definition mask32 : Z := 4294967295.

Definition add32 (a b : Z) : Z := (a + b) mod 4294967296.

Definition rotr (n x : Z) : Z :=
  Z.lor (Z.shiftr x n) (Z.land (Z.shiftl x (32 - n)) mask32).

Definition Ch (x y z : Z) : Z :=
  Z.lxor (Z.land x y) (Z.land (Z.lxor x mask32) z).

Definition Maj (x y z : Z) : Z :=
  Z.lxor (Z.lxor (Z.land x y) (Z.land x z)) (Z.land y z).

Definition Sigma0 (x : Z) : Z := Z.lxor (Z.lxor (rotr 2 x) (rotr 13 x)) (rotr 22 x).
Definition Sigma1 (x : Z) : Z := Z.lxor (Z.lxor (rotr 6 x) (rotr 11 x)) (rotr 25 x).
Definition sigma0 (x : Z) : Z := Z.lxor (Z.lxor (rotr 7 x) (rotr 18 x)) (Z.shiftr x 3).
Definition sigma1 (x : Z) : Z := Z.lxor (Z.lxor (rotr 17 x) (rotr 19 x)) (Z.shiftr x 10).

(** The constants of the standard are fractional parts of roots of the
    first primes: the first 32 bits after the point of the cube roots of the
    first 64 primes (the round constants) and of the square roots of the
    first 8 (the initial chaining value). *)

Definition is_prime (n : nat) : bool :=
  (2 <=? n)%nat && forallb (fun d => negb (n mod d =? 0)%nat) (seq 2 (n - 2)).

Definition primes : list Z := List.map Z.of_nat (List.filter is_prime (seq 2 310)).

(** The integer part of the cube root, bit by bit from [bits] down. *)
Fixpoint cbrt_bits (bits : nat) (n r : Z) : Z :=
  match bits with
  | O => r
  | S b =>
      let r' := r + 2 ^ Z.of_nat b in
      cbrt_bits b n (if r' * r' * r' <=? n then r' else r)
  end.

Definition frac_cbrt (p : Z) : Z := cbrt_bits 40 (p * 2 ^ 96) 0 mod 2 ^ 32.
Definition frac_sqrt (p : Z) : Z := Z.sqrt (p * 2 ^ 64) mod 2 ^ 32.

Definition K : list Z := Eval vm_compute in List.map frac_cbrt primes.

(** The eight working variables, also the chaining value. *)
Record state := mkState { va : Z; vb : Z; vc : Z; vd : Z; ve : Z; vf : Z; vg : Z; vh : Z }.

Definition init : state :=
  Eval vm_compute in
    match List.map frac_sqrt (firstn 8 primes) with
    | [a; b; c; d; e; f; g; h] => mkState a b c d e f g h
    | _ => mkState 0 0 0 0 0 0 0 0
    end.

(** Padding: the byte 0x80, zeros up to 56 mod 64, the bit length on 8 bytes. *)
Definition be_bytes (n : nat) (x : Z) : list Z :=
  List.map (fun i => Z.land (Z.shiftr x (8 * Z.of_nat i)) 255) (rev (seq 0 n)).

Definition pad (msg : list Z) : list Z :=
  let len := Z.of_nat (List.length msg) in
  let zeros := Z.to_nat ((55 - len) mod 64) in
  msg ++ 128 :: repeat 0 zeros ++ be_bytes 8 (8 * len).

Fixpoint chunks (fuel : nat) (size : nat) (l : list Z) : list (list Z) :=
  match fuel with
  | O => []
  | S fuel' =>
      match l with
      | [] => []
      | _ => firstn size l :: chunks fuel' size (skipn size l)
      end
  end.

Definition be_word (bs : list Z) : Z :=
  fold_left (fun acc b => Z.lor (Z.shiftl acc 8) b) bs 0.

Definition words (block : list Z) : list Z :=
  List.map be_word (chunks 16 4 block).

(** One round: [w] is the sliding window W(t) .. W(t+15) of the schedule. *)
Definition round (sw : state * list Z) (k : Z) : state * list Z :=
  let '(s, w) := sw in
  let wt := nth 0 w 0 in
  let t1 := add32 (add32 (add32 (add32 (vh s) (Sigma1 (ve s))) (Ch (ve s) (vf s) (vg s))) k) wt in
  let t2 := add32 (Sigma0 (va s)) (Maj (va s) (vb s) (vc s)) in
  let next :=
    add32 (add32 (add32 (sigma1 (nth 14 w 0)) (nth 9 w 0)) (sigma0 (nth 1 w 0))) wt in
  (mkState (add32 t1 t2) (va s) (vb s) (vc s) (add32 (vd s) t1) (ve s) (vf s) (vg s),
   tl w ++ [next]).

Definition compress (h : state) (block : list Z) : state :=
  let s := fst (fold_left round K (h, words block)) in
  mkState (add32 (va h) (va s)) (add32 (vb h) (vb s)) (add32 (vc h) (vc s))
          (add32 (vd h) (vd s)) (add32 (ve h) (ve s)) (add32 (vf h) (vf s))
          (add32 (vg h) (vg s)) (add32 (vh h) (vh s)).

Definition digest (s : state) : list Z :=
  be_bytes 4 (va s) ++ be_bytes 4 (vb s) ++ be_bytes 4 (vc s) ++ be_bytes 4 (vd s) ++
  be_bytes 4 (ve s) ++ be_bytes 4 (vf s) ++ be_bytes 4 (vg s) ++ be_bytes 4 (vh s).

(** [sha256.Sum256]: the 32 bytes of the digest. *)
Definition Sum256 (msg : list Z) : list Z :=
  let p := pad msg in
  digest (fold_left compress (chunks (List.length p) 64 p) init).

Definition hexdigit (d : Z) : ascii :=
  ascii_of_N (Z.to_N (if d <? 10 then 48 + d else 87 + d)).

(** [fmt.Sprintf("%x", b)] on a byte array: two lower-case digits per byte. *)
Fixpoint hex (bs : list Z) : string :=
  match bs with
  | [] => ""
  | b :: bs' => String (hexdigit (b / 16)) (String (hexdigit (b mod 16)) (hex bs'))
  end.

End SHA256.

(** ** Machine integers, strconv and the [%d] verb *)

Module Strconv.

(** [int64] arithmetic wraps around: the value of a result in two's complement. *)
Definition wrap64 (z : Z) : Z := (z + 2 ^ 63) mod 2 ^ 64 - 2 ^ 63.

(** [a - b] on [int64]. *)
Definition sub64 (a b : Z) : Z := wrap64 (a - b).

(** The conversion [int(x)] of an [int64]: [int] has 64 bits on the platform
    the model fixes, so the conversion keeps the value. *)
Definition int_of_int64 (x : Z) : Z := wrap64 x.

Definition in_int64 (z : Z) : Prop := - 2 ^ 63 <= z < 2 ^ 63.

Inductive numerr := ErrSyntax | ErrRange.

Definition maxUint64 : Z := 2 ^ 64 - 1.

(** The smallest number such that [cutoff * 10 > maxUint64]. *)
Definition cutoff10 : Z := maxUint64 / 10 + 1.

(** The loop of [strconv.ParseUint(s, 10, 64)] over the bytes of [s]: a byte
    that is no decimal digit is a syntax error (an underscore too, the base
    being given), a value past [maxUint64] a range error, found left to right. *)
Fixpoint ParseUint_loop (cs : string) (n : Z) : Z * option numerr :=
  match cs with
  | EmptyString => (n, None)
  | String c cs' =>
      let v := Z.of_N (N_of_ascii c) in
      if (48 <=? v) && (v <=? 57) then
        let d := v - 48 in
        if cutoff10 <=? n then (maxUint64, Some ErrRange)
        else
          let n10 := (n * 10) mod 2 ^ 64 in
          let n1 := (n10 + d) mod 2 ^ 64 in
          if (n1 <? n10) || (maxUint64 <? n1) then (maxUint64, Some ErrRange)
          else ParseUint_loop cs' n1
      else (0, Some ErrSyntax)
  end.

Definition ParseUint (s : string) : Z * option numerr :=
  match s with
  | EmptyString => (0, Some ErrSyntax)
  | _ => ParseUint_loop s 0
  end.

(** [strconv.ParseInt(s, 10, 64)]: the value and the kind of error, if any. *)
Definition ParseInt (s : string) : Z * option numerr :=
  match s with
  | EmptyString => (0, Some ErrSyntax)
  | String c0 rest =>
      let neg := Ascii.eqb c0 "-" in
      let s1 := if Ascii.eqb c0 "+" || neg then rest else s in
      match ParseUint s1 with
      | (_, Some ErrSyntax) => (0, Some ErrSyntax)
      | (un, _) =>
          let cutoff := 2 ^ 63 in
          if negb neg && (cutoff <=? un) then (cutoff - 1, Some ErrRange)
          else if neg && (cutoff <? un) then (- cutoff, Some ErrRange)
          else
            let n := wrap64 un in
            (if neg then wrap64 (- n) else n, None)
      end
  end.

Definition digit (d : Z) : ascii := ascii_of_N (Z.to_N (48 + d)).

(** The digit loop of [fmt]'s integer formatting, filling the buffer from
    the right; 20 digits hold every [uint64]. *)
Fixpoint digits (fuel : nat) (u : Z) (acc : string) : string :=
  match fuel with
  | O => acc
  | S fuel' =>
      if u <? 10 then String (digit u) acc
      else digits fuel' (u / 10) (String (digit (u mod 10)) acc)
  end.

(** [fmt.Sprintf("%d", x)] for an [int64] [x]. *)
Definition FormatInt (x : Z) : string :=
  if x <? 0 then String "-" (digits 20 (- x) "") else digits 20 x "".

End Strconv.

(** ** fmt with a format and no operands

    [getPOSTParams] builds its last error by [fmt.Errorf(text)], the text
    being the format: what [fmt] does with a format when there is no operand
    to print is written out after [doPrintf].  Text up to a [%] is copied; a
    [%] opens a verb: flags, an argument index in brackets, a width, a
    precision, then the verb itself, which prints as [%] for [%%] and
    otherwise as a note that the operand is missing. *)

Module Fmt.

Definition byte_of (c : ascii) : Z := Z.of_N (N_of_ascii c).

(** [strings.Cut] at a byte: what stands before it and, if it is there,
    what follows it. *)
Fixpoint cut_byte (b : ascii) (s : string) : string * option string :=
  match s with
  | EmptyString => (EmptyString, None)
  | String c s' =>
      if Ascii.eqb c b then (EmptyString, Some s')
      else let '(lit, after) := cut_byte b s' in (String c lit, after)
  end.

Definition is_flag (c : ascii) : bool :=
  Ascii.eqb c "#" || Ascii.eqb c "0" || Ascii.eqb c "+" || Ascii.eqb c "-"
  || Ascii.eqb c " ".

Fixpoint skip_flags (s : string) : string :=
  match s with
  | EmptyString => EmptyString
  | String c s' => if is_flag c then skip_flags s' else s
  end.

Definition tooLarge (x : Z) : bool := (1000000 <? x) || (x <? -1000000).

(** [parsenum] over the text up to its [end]: the number, whether there is
    one, and what is left; a number too large takes all that is left. *)
Fixpoint parsenum_loop (s : string) (num : Z) (isnum : bool) : Z * bool * string :=
  match s with
  | EmptyString => (num, isnum, EmptyString)
  | String c s' =>
      if (48 <=? byte_of c) && (byte_of c <=? 57) then
        if tooLarge num then (0, false, EmptyString)
        else parsenum_loop s' (num * 10 + (byte_of c - 48)) true
      else (num, isnum, s)
  end.

Definition parsenum (s : string) : Z * bool * string := parsenum_loop s 0 false.

(** [parseArgNumber] on a text that starts with a bracket: what follows the
    index, and whether the index is a number between brackets. *)
Definition parseArgNumber (s : string) : string * bool :=
  match s with
  | EmptyString => (EmptyString, false)
  | String _ s1 =>
      if (String.length s <? 3)%nat then (s1, false)
      else
        match cut_byte "]" s1 with
        | (_, None) => (s1, false)
        | (inside, Some after) =>
            let '(_, ok, remaining) := parsenum inside in
            (after, ok && GoString.is_empty remaining)
        end
  end.

(** What [doPrintf] carries through one verb: the text written so far for
    it, the format still to read, and its two flags. *)
Record state : Type := mkState {
  buf : string;
  rest : string;
  afterIndex : bool;
  goodArgNum : bool
}.

(** [i < end && format[i] == c], and the format after that byte. *)
Definition at_byte (c : ascii) (s : string) : bool :=
  match s with
  | String d _ => Ascii.eqb d c
  | EmptyString => false
  end.

Definition tail (s : string) : string :=
  match s with
  | String _ s' => s'
  | EmptyString => EmptyString
  end.

(** [argNumber] when there is no operand: no index is in range, so a
    bracket always spoils the argument number; an index is found when it is
    a number between brackets. *)
Definition argNumber (p : state) : state :=
  if at_byte "[" (rest p) then
    let '(s', ok) := parseArgNumber (rest p) in
    mkState (buf p) s' ok false
  else mkState (buf p) (rest p) false (goodArgNum p).

(** The width: a star asks for an operand, and there is none. *)
Definition width (p : state) : state :=
  if at_byte "*" (rest p) then
    mkState (buf p +:+ "%!(BADWIDTH)") (tail (rest p)) false (goodArgNum p)
  else
    let '(_, widPresent, s') := parsenum (rest p) in
    mkState (buf p) s' (afterIndex p)
            (if afterIndex p && widPresent then false else goodArgNum p).

(** The precision, after a dot. *)
Definition precision (p : state) : state :=
  if at_byte "." (rest p) then
    let p1 := argNumber (mkState (buf p) (tail (rest p)) (afterIndex p)
                                 (if afterIndex p then false else goodArgNum p)) in
    if at_byte "*" (rest p1) then
      mkState (buf p1 +:+ "%!(BADPREC)") (tail (rest p1)) false (goodArgNum p1)
    else
      let '(_, _, s') := parsenum (rest p1) in
      mkState (buf p1) s' (afterIndex p1) (goodArgNum p1)
  else p.

Definition in_range (lo hi : Z) (c : ascii) : bool := (lo <=? byte_of c) && (byte_of c <=? hi).

(** The size of the rune a first byte opens and the range of its second
    byte, as [utf8] has them. *)
Definition first_byte (c : ascii) : option (nat * Z * Z) :=
  let b := byte_of c in
  if (194 <=? b) && (b <=? 223) then Some (2%nat, 128, 191)
  else if b =? 224 then Some (3%nat, 160, 191)
  else if (225 <=? b) && (b <=? 236) then Some (3%nat, 128, 191)
  else if b =? 237 then Some (3%nat, 128, 159)
  else if (238 <=? b) && (b <=? 239) then Some (3%nat, 128, 191)
  else if b =? 240 then Some (4%nat, 144, 191)
  else if (241 <=? b) && (b <=? 243) then Some (4%nat, 128, 191)
  else if b =? 244 then Some (4%nat, 128, 143)
  else None.

(** U+FFFD as [utf8] writes it. *)
Definition runeError : string :=
  String (ascii_of_N 239) (String (ascii_of_N 191) (String (ascii_of_N 189) EmptyString)).

(** The verb: the rune at the head of the text as it is written back (a
    byte that opens no rune is written as U+FFFD), and what follows it. *)
Definition decode_verb (s : string) : string * string :=
  match s with
  | EmptyString => (EmptyString, EmptyString)
  | String c0 s1 =>
      if byte_of c0 <? 128 then (String c0 EmptyString, s1)
      else
        match first_byte c0, s1 with
        | Some (2%nat, lo, hi), String c1 s2 =>
            if in_range lo hi c1 then (String c0 (String c1 EmptyString), s2)
            else (runeError, s1)
        | Some (3%nat, lo, hi), String c1 (String c2 s3) =>
            if in_range lo hi c1 && in_range 128 191 c2
            then (String c0 (String c1 (String c2 EmptyString)), s3)
            else (runeError, s1)
        | Some (4%nat, lo, hi), String c1 (String c2 (String c3 s4)) =>
            if in_range lo hi c1 && in_range 128 191 c2 && in_range 128 191 c3
            then (String c0 (String c1 (String c2 (String c3 EmptyString))), s4)
            else (runeError, s1)
        | _, _ => (runeError, s1)
        end
  end.

(** One verb, from the byte after its [%]: what is written for it and the
    format that follows it. *)
Definition verb (s : string) : string * string :=
  let p := argNumber (mkState EmptyString (skip_flags s) false true) in
  let p := precision (width p) in
  let p := if afterIndex p then p else argNumber p in
  if GoString.is_empty (rest p) then (buf p +:+ "%!(NOVERB)", EmptyString)
  else
    let '(r, s') := decode_verb (rest p) in
    (buf p +:+ (if String.eqb r "%" then "%"
                else if goodArgNum p then "%!" +:+ r +:+ "(MISSING)"
                else "%!" +:+ r +:+ "(BADINDEX)"),
     s').

(** The loop of [doPrintf]; every turn takes at least the [%] it stops at,
    so the length of the format bounds the turns. *)
Fixpoint doPrintf (fuel : nat) (format : string) : string :=
  match fuel with
  | O => EmptyString
  | S fuel' =>
      match cut_byte "%" format with
      | (lit, None) => lit
      | (lit, Some s) =>
          let '(out, s') := verb s in
          lit +:+ out +:+ doPrintf fuel' s'
      end
  end.

(** [fmt.Sprintf(format)], which is also the text of [fmt.Errorf(format)]. *)
Definition Sprintf (format : string) : string :=
  doPrintf (S (String.length format)) format.

End Fmt.

(** ** sort.Strings

    Go sorts the keys in place in increasing byte-wise order.  The model is
    the Standard Library's merge sort over [String.leb], the byte-wise
    lexicographic order: the sorted arrangement of a list is unique, so every
    sorting algorithm computes this function. *)

Module StringOrder <: TotalLeBool.
Definition t := string.
Definition leb : t -> t -> bool := String.leb.
Lemma leb_total : forall x y : t, leb x y = true \/ leb y x = true.
Proof. exact String.leb_total. Qed.
End StringOrder.

Module StringSort := Sort StringOrder.

Definition sort_Strings (keys : list string) : list string := StringSort.sort keys.

(** ** io, net/url and net/http values *)

(** A body: the bytes a reader still holds and the error, if any, that
    reading it to the end runs into. *)
Record Reader := mkReader { pending : string; fault : option string }.

(** [io.ReadAll]: the bytes read, the error, and the reader left behind,
    which holds nothing more. *)
Definition ReadAll (rd : Reader) : string * option string * Reader :=
  (pending rd, fault rd, mkReader "" (fault rd)).

(** [io.NopCloser(bytes.NewBuffer(body))]. *)
Definition NewBuffer (body : string) : Reader := mkReader body None.

(** [url.Values] and [Values.Get]. *)
Definition Values_Get (v : gmap string (list string)) (key : string) : string :=
  match v !! key with
  | Some (x :: _) => x
  | _ => ""
  end.

Module Url.
Record t := mk { Path : string; RawQuery : string }.
End Url.

Module Request.
Record t := mk { Header : gmap string (list string); Body : Reader; URL : Url.t }.
Definition with_Header (r : t) (h : gmap string (list string)) : t := mk h (Body r) (URL r).
Definition with_Body (r : t) (b : Reader) : t := mk (Header r) b (URL r).
End Request.

Module Response.
Record t := mk { Header : gmap string (list string); Body : Reader; Request : Request.t }.
Definition with_Body (r : t) (b : Reader) : t := mk (Header r) b (Request r).
End Response.

(** Go's [error] values as this package produces or passes them on. *)
Inductive error :=
| Errorf (msg : string)
| NumError (func num : string) (err : Strconv.numerr)
| ReadError (msg : string).

Record SignatureResult := mkSignatureResult {
  FinalText : string;
  Timestamp : string;
  Sign : string;
  AccessKey : string
}.

Record SignatureBuilder := mkSignatureBuilder {
  accessKey : string;
  secretKey : string;
  expiredIn : Z
}.

Definition NewSignatureBuilder (ak sk : string) (expiredIn : Z) : SignatureBuilder :=
  mkSignatureBuilder ak sk expiredIn.

(** [hash]: the lower-case hexadecimal SHA-256 digest of the text. *)
Definition hash (text : string) : string :=
  SHA256.hex (SHA256.Sum256 (GoString.bytes text)).

(** [buildParamsSignatureText] from the point where [for k := range params]
    has delivered the keys in the order [keys]: Go leaves that order open. *)
Definition buildParamsSignatureText_ranged
    (keys : list string) (params : gmap string string) (body : string) : string :=
  let keys := sort_Strings keys in
  let paramStr :=
    fold_left (fun acc k => acc +:+ (k +:+ "=" +:+ default "" (params !! k))) keys "" in
  paramStr +:+ body.

Definition buildParamsSignatureText (params : gmap string string) (body : string) : string :=
  buildParamsSignatureText_ranged (map_to_list params).*1 params body.

(** The loop [for k, v := range postParams { queryParams[k] = v }], run when
    [len(postParams) > 0]. *)
Definition mergeParams (queryParams postParams : gmap string string) : gmap string string :=
  if (0 <? Z.of_nat (size postParams))
  then map_fold (fun k v acc => <[k := v]> acc) queryParams postParams
  else queryParams.

(** ** What the package takes from outside the file

    The names of the three header fields are constants of the package that
    are declared in another file; [textproto.CanonicalMIMEHeaderKey] (under
    which [Header.Get] and [Header.Set] file a field), [mime.ParseMediaType]
    and [url.ParseQuery] belong to Go's library.  The package is verified for
    every choice of them: they are the fields of [Env].

    [ParseMediaType] yields the media type and the text of the error, if any
    (the package does not use the parameters of the media type);
    [ParseQuery] yields the values parsed and the text of the first error. *)

Class Env := {
  HeadKeyTimestamp : string;
  HeadKeySign : string;
  HeadKeyAccessKey : string;
  CanonicalMIMEHeaderKey : string -> string;
  ParseMediaType : string -> string * option string;
  ParseQuery : string -> gmap string (list string) * option string
}.

(** The module [Ref] holds the environment the examples run in.  Its
    functions follow Go's library on ASCII input; [ParseMediaType] reads the
    media type and leaves what follows the first semicolon unexamined, and
    the texts of the errors are shortened. *)

Module Ref.

Definition byte_of (c : ascii) : Z := Z.of_N (N_of_ascii c).
Definition ascii_of (z : Z) : ascii := ascii_of_N (Z.to_N z).

Definition is_lower (c : ascii) : bool := (97 <=? byte_of c) && (byte_of c <=? 122).
Definition is_upper (c : ascii) : bool := (65 <=? byte_of c) && (byte_of c <=? 90).
Definition is_digit (c : ascii) : bool := (48 <=? byte_of c) && (byte_of c <=? 57).

Fixpoint forallb_string (p : ascii -> bool) (s : string) : bool :=
  match s with
  | EmptyString => true
  | String c s' => p c && forallb_string p s'
  end.

Fixpoint mem_ascii (c : ascii) (s : string) : bool :=
  match s with
  | EmptyString => false
  | String d s' => Ascii.eqb c d || mem_ascii c s'
  end.

(** [validHeaderFieldByte]: the token bytes of RFC 7230. *)
Definition validHeaderFieldByte (c : ascii) : bool :=
  is_lower c || is_upper c || is_digit c || mem_ascii c "!#$%&'*+-.^_`|~".

Fixpoint capitalize (upper : bool) (s : string) : string :=
  match s with
  | EmptyString => EmptyString
  | String c s' =>
      let c' :=
        if upper && is_lower c then ascii_of (byte_of c - 32)
        else if negb upper && is_upper c then ascii_of (byte_of c + 32)
        else c in
      String c' (capitalize (Ascii.eqb c' "-") s')
  end.

(** A key with a byte that is no token byte is left as it is; otherwise the
    first letter and each letter after a dash are upper case, the rest lower. *)
Definition CanonicalMIMEHeaderKey (s : string) : string :=
  if forallb_string validHeaderFieldByte s then capitalize true s else s.

Definition ishex (c : ascii) : bool :=
  is_digit c || ((97 <=? byte_of c) && (byte_of c <=? 102))
             || ((65 <=? byte_of c) && (byte_of c <=? 70)).

Definition unhex (c : ascii) : Z :=
  if is_digit c then byte_of c - 48
  else if is_lower c then byte_of c - 97 + 10
  else byte_of c - 65 + 10.

(** [url.QueryUnescape]: [%XX] is the byte XX and [+] a space; [None] is the
    escape error. *)
Fixpoint QueryUnescape (s : string) : option string :=
  match s with
  | EmptyString => Some EmptyString
  | String "%" (String h1 (String h2 rest)) =>
      if ishex h1 && ishex h2
      then option_map (String (ascii_of (16 * unhex h1 + unhex h2))) (QueryUnescape rest)
      else None
  | String "%" _ => None
  | String "+" rest => option_map (String " ") (QueryUnescape rest)
  | String c rest => option_map (String c) (QueryUnescape rest)
  end.

(** [strings.Cut s sep] for a one-byte separator: before, after, found. *)
Fixpoint Cut (s : string) (sep : ascii) : string * string * bool :=
  match s with
  | EmptyString => (EmptyString, EmptyString, false)
  | String c s' =>
      if Ascii.eqb c sep then (EmptyString, s', true)
      else let '(b, a, f) := Cut s' sep in (String c b, a, f)
  end.

(** The pieces [strings.Cut(query, "&")] hands out one after the other. *)
Fixpoint pieces (s : string) (sep : ascii) : list string :=
  match s with
  | EmptyString => [EmptyString]
  | String c s' =>
      if Ascii.eqb c sep then EmptyString :: pieces s' sep
      else match pieces s' sep with
           | p :: ps => String c p :: ps
           | [] => [String c EmptyString]
           end
  end.

(** One turn of the loop of [url.parseQuery] (Go 1.17 and later: a semicolon
    is no separator). *)
Definition parseQuery_step (acc : gmap string (list string) * option string) (key : string)
    : gmap string (list string) * option string :=
  let '(m, err) := acc in
  if mem_ascii ";" key then (m, Some "invalid semicolon separator in query")
  else if GoString.is_empty key then (m, err)
  else
    let '(k, v, _) := Cut key "=" in
    let keep := match err with None => Some "invalid URL escape" | _ => err end in
    match QueryUnescape k with
    | None => (m, keep)
    | Some k =>
        match QueryUnescape v with
        | None => (m, keep)
        | Some v => (<[k := default [] (m !! k) ++ [v]]> m, err)
        end
    end.

Definition ParseQuery (query : string) : gmap string (list string) * option string :=
  fold_left parseQuery_step (pieces query "&") (∅, None).

Definition isTokenChar (c : ascii) : bool :=
  (32 <? byte_of c) && (byte_of c <? 127)
  && negb (mem_ascii c "()<>@,;:\/[]?=" || Ascii.eqb c (ascii_of 34)).

Definition is_space (c : ascii) : bool :=
  mem_ascii c (String (ascii_of 9) (String (ascii_of 10) (String (ascii_of 11)
              (String (ascii_of 12) (String (ascii_of 13) " "))))).

Fixpoint ToLower (s : string) : string :=
  match s with
  | EmptyString => EmptyString
  | String c s' => String (if is_upper c then ascii_of (byte_of c + 32) else c) (ToLower s')
  end.

Fixpoint TrimLeft (s : string) : string :=
  match s with
  | String c s' => if is_space c then TrimLeft s' else s
  | EmptyString => EmptyString
  end.

Fixpoint TrimRight (s : string) : string :=
  match s with
  | EmptyString => EmptyString
  | String c s' =>
      match TrimRight s' with
      | EmptyString => if is_space c then EmptyString else String c EmptyString
      | t => String c t
      end
  end.

Definition TrimSpace (s : string) : string := TrimRight (TrimLeft s).

(** [consumeToken]: the longest prefix of token bytes, and the rest. *)
Fixpoint consumeToken (s : string) : string * string :=
  match s with
  | EmptyString => (EmptyString, EmptyString)
  | String c s' =>
      if isTokenChar c then let '(t, r) := consumeToken s' in (String c t, r)
      else (EmptyString, s)
  end.

Definition checkMediaTypeDisposition (s : string) : option string :=
  let '(typ, rest) := consumeToken s in
  if GoString.is_empty typ then Some "mime: no media type"
  else if GoString.is_empty rest then None
  else match rest with
       | String "/" rest1 =>
           let '(subtype, rest2) := consumeToken rest1 in
           if GoString.is_empty subtype then Some "mime: expected token after slash"
           else if GoString.is_empty rest2 then None
           else Some "mime: unexpected content after media subtype"
       | _ => Some "mime: expected slash after first token"
       end.

Definition ParseMediaType (v : string) : string * option string :=
  let '(base, _, _) := Cut v ";" in
  let mediatype := TrimSpace (ToLower base) in
  match checkMediaTypeDisposition mediatype with
  | Some err => (EmptyString, Some err)
  | None => (mediatype, None)
  end.

(** The environment of the examples, with names for the three fields. *)
Definition env : Env :=
  Build_Env "X-Timestamp" "X-Sign" "X-Access-Key"
            CanonicalMIMEHeaderKey ParseMediaType ParseQuery.

End Ref.

Section SignatureBuilder.

Context {env : Env}.

Definition Header_Get (h : gmap string (list string)) (key : string) : string :=
  match h !! CanonicalMIMEHeaderKey key with
  | Some (v :: _) => v
  | _ => ""
  end.

Definition Header_Set (h : gmap string (list string)) (key value : string)
    : gmap string (list string) :=
  <[CanonicalMIMEHeaderKey key := [value]]> h.

(** [URL.Query]: the parsed query string, errors dropped. *)
Definition URL_Query (u : Url.t) : gmap string (list string) :=
  fst (ParseQuery (Url.RawQuery u)).

Definition getGETParams (r : Request.t) : gmap string string :=
  map_fold
    (fun key values params =>
       match values with
       | v0 :: _ => <[key := v0]> params
       | [] => params
       end)
    ∅ (URL_Query (Request.URL r)).

Definition defaultContentType : string := "application/x-www-form-urlencoded".

(** [getPOSTParams]: the body text, the form parameters and the error,
    with the request as the call leaves it.  The first three errors print
    their operand by [%v] after a constant format; the last one has no
    operand and takes the text with the media type in it as its format. *)
Definition getPOSTParams (r : Request.t)
    : (string * gmap string string * option error) * Request.t :=
  let ct := Header_Get (Request.Header r) "Content-Type" in
  let ct := if GoString.is_empty ct then defaultContentType else ct in
  match ParseMediaType ct with
  | (_, Some err) =>
      (("", ∅, Some (Errorf ("failed to parse content type: " +:+ err))), r)
  | (ct, None) =>
      let '(body, rerr, rd) := ReadAll (Request.Body r) in
      match rerr with
      | Some err =>
          (("", ∅, Some (Errorf ("failed to read request body: " +:+ err))),
           Request.with_Body r rd)
      | None =>
          let r := Request.with_Body r (NewBuffer body) in
          if GoString.Contains ct "application/json" then
            ((body, ∅, None), r)
          else if GoString.Contains ct defaultContentType then
            match ParseQuery body with
            | (_, Some err) =>
                (("", ∅, Some (Errorf ("failed to parse form data: " +:+ err))), r)
            | (values, None) =>
                let params :=
                  map_fold (fun k _ params => <[k := Values_Get values k]> params)
                           ∅ values in
                (("", params, None), r)
            end
          else
            (("", ∅, Some (Errorf (Fmt.Sprintf ("unsupported content type: " +:+ ct)))), r)
      end
  end.

(** [buildSignatureFromIncomeRequest]; [now] is what [time.Now().Unix()]
    returns when the call reads the clock. *)
Definition buildSignatureFromIncomeRequest
    (s : SignatureBuilder) (now : Z) (r : Request.t)
    : (option SignatureResult * option error) * Request.t :=
  let queryParams := getGETParams r in
  match getPOSTParams r with
  | ((_, _, Some err), r) => ((None, Some err), r)
  | ((body, postParams, None), r) =>
      let queryParams := mergeParams queryParams postParams in
      let ts := Header_Get (Request.Header r) HeadKeyTimestamp in
      let ts := if GoString.is_empty ts then Strconv.FormatInt now else ts in
      let path := Url.Path (Request.URL r) in
      let finalText :=
        path +:+ buildParamsSignatureText queryParams body +:+ ts +:+ secretKey s in
      let sign := hash finalText in
      ((Some (mkSignatureResult finalText ts sign ""), None), r)
  end.

Definition SignRequest (s : SignatureBuilder) (now : Z) (r : Request.t)
    : (option SignatureResult * option error) * Request.t :=
  match buildSignatureFromIncomeRequest s now r with
  | ((Some rs, None), r) =>
      let h := Header_Set (Request.Header r) HeadKeyTimestamp (Timestamp rs) in
      let h := Header_Set h HeadKeyAccessKey (accessKey s) in
      let h := Header_Set h HeadKeySign (Sign rs) in
      ((Some rs, None), Request.with_Header r h)
  | ((_, err), r) => ((None, err), r)
  end.

Definition ValidateRequest (s : SignatureBuilder) (now : Z) (r : Request.t)
    : option error * Request.t :=
  let ts := Header_Get (Request.Header r) HeadKeyTimestamp in
  match Strconv.ParseInt ts with
  | (_, Some e) => (Some (NumError "ParseInt" ts e), r)
  | (timestamp, None) =>
      if (0 <? expiredIn s)
         && (expiredIn s <? Strconv.int_of_int64 (Strconv.sub64 now timestamp))
      then (Some (Errorf "timestamp expired"), r)
      else
        match buildSignatureFromIncomeRequest s now r with
        | ((Some rs, None), r) =>
            if negb (String.eqb (Sign rs) (Header_Get (Request.Header r) HeadKeySign))
            then (Some (Errorf "signature validation failed"), r)
            else (None, r)
        | ((_, err), r) => (err, r)
        end
  end.

Definition SignResponseBody (s : SignatureBuilder) (now : Z) (reqPath body : string)
    : SignatureResult * option error :=
  let ts := Strconv.FormatInt now in
  let finalText :=
    reqPath +:+ buildParamsSignatureText ∅ body +:+ ts +:+ secretKey s in
  let sign := hash finalText in
  (mkSignatureResult finalText ts sign (accessKey s), None).

Definition ValidateResponse (s : SignatureBuilder) (res : Response.t)
    : option error * Response.t :=
  let '(body, rerr, rd) := ReadAll (Response.Body res) in
  match rerr with
  | Some err => (Some (ReadError err), Response.with_Body res rd)
  | None =>
      let res := Response.with_Body res (NewBuffer body) in
      let ts := Header_Get (Response.Header res) HeadKeyTimestamp in
      if GoString.is_empty ts
      then (Some (Errorf "timestamp missing in response header"), res)
      else
        let sign := Header_Get (Response.Header res) HeadKeySign in
        if GoString.is_empty sign
        then (Some (Errorf "signature missing in response header"), res)
        else
          let ak := Header_Get (Response.Header res) HeadKeyAccessKey in
          if negb (String.eqb ak (accessKey s))
          then (Some (Errorf "access key validation failed"), res)
          else if negb (String.eqb ak (accessKey s))
          then (Some (Errorf "access key validation failed"), res)
          else
            let signText := buildParamsSignatureText ∅ body in
            let path := Url.Path (Request.URL (Response.Request res)) in
            let finalText := path +:+ signText +:+ ts +:+ secretKey s in
            let resSign := hash finalText in
            if String.eqb resSign sign then (None, res)
            else (Some (Errorf "signature validation failed"), res)
  end.

(** ** The vocabulary of the statements *)

(** The byte-wise order of strings, as [sort.Strings] compares them. *)
Definition string_le (a b : string) : Prop := String.leb a b = true.
Definition string_lt (a b : string) : Prop := String.ltb a b = true.

(** The pairs [key=value] of the keys [keys], in that order, one after the
    other with nothing in between. *)
Definition pairsText (params : gmap string string) (keys : list string) : string :=
  fold_right String.append ""
    (List.map (fun k => k +:+ "=" +:+ default "" (params !! k)) keys).

(** The content type [getPOSTParams] goes by: the declared one, or the
    default when the header is absent or empty. *)
Definition contentTypeOf (r : Request.t) : string :=
  let ct := Header_Get (Request.Header r) "Content-Type" in
  if GoString.is_empty ct then defaultContentType else ct.

(** The timestamp a request is signed with: the one its header holds, or the
    clock's when the header holds none. *)
Definition signingTimestamp (now : Z) (h : gmap string (list string)) : string :=
  let ts := Header_Get h HeadKeyTimestamp in
  if GoString.is_empty ts then Strconv.FormatInt now else ts.

(** The expiry test of the code, on its own. *)
Definition expired (s : SignatureBuilder) (now timestamp : Z) : bool :=
  (0 <? expiredIn s)
  && (expiredIn s <? Strconv.int_of_int64 (Strconv.sub64 now timestamp)).

(** The text a response is signed over. *)
Definition responseText (s : SignatureBuilder) (res : Response.t) (ts : string) : string :=
  Url.Path (Request.URL (Response.Request res))
  +:+ buildParamsSignatureText ∅ (pending (Response.Body res))
  +:+ ts +:+ secretKey s.

(** The power of ten that [digits] shifts what stands to the left by. *)
Fixpoint scale (fuel : nat) (u : Z) : Z :=
  match fuel with
  | O => 1
  | S fuel' => if u <? 10 then 10 else 10 * scale fuel' (u / 10)
  end.

(** A lower-case hexadecimal digit, and a test on every byte of a string. *)
Definition is_hex_lower (c : ascii) : bool :=
  let v := Z.of_N (N_of_ascii c) in
  ((48 <=? v) && (v <=? 57)) || ((97 <=? v) && (v <=? 102)).

Fixpoint all_chars (p : ascii -> bool) (s : string) : bool :=
  match s with
  | EmptyString => true
  | String c s' => p c && all_chars p s'
  end.

(** A decimal digit, and the texts [strconv.ParseInt] takes for a number in
    base 10: decimal digits, at least one, after at most one sign. *)
Definition is_decimal (c : ascii) : bool :=
  let v := Z.of_N (N_of_ascii c) in (48 <=? v) && (v <=? 57).

Definition is_decimal_text (ts : string) : bool :=
  match ts with
  | EmptyString => false
  | String c0 rest =>
      if Ascii.eqb c0 "+" || Ascii.eqb c0 "-"
      then negb (GoString.is_empty rest) && all_chars is_decimal rest
      else all_chars is_decimal ts
  end.

End SignatureBuilder.

(** ** The requests and responses of the examples

    [sb], [req] and [res] are those of the package's tests
    ([TestSigRequest], [TestSignResponse]); [t0] stands for the clock. *)

Module Sample.

Definition sb : SignatureBuilder := NewSignatureBuilder "ak" "sk" 3600.

Definition t0 : Z := 1700000000.

Definition url : Url.t := Url.mk "/v1/photos/generate" "data=a".

Definition req : Request.t := Request.mk ∅ (NewBuffer "a=b&d=c") url.

(** The same request, already carrying a timestamp or another field. *)
Definition req_with (key value : string) : Request.t :=
  Request.mk {[ key := [value] ]} (NewBuffer "a=b&d=c") url.

Definition req_stale : Request.t := req_with "X-Timestamp" "1600000000".

Definition req_ancient : Request.t := req_with "X-Timestamp" "-9223372036854775808".

Definition req_agent : Request.t := req_with "User-Agent" "Go-http-client/1.1".

Definition req_json : Request.t := Request.mk {[ "Content-Type" := ["application/json"] ]} (NewBuffer "[1,2,3]") url.

(** A query string and a form body that both give the key [a]. *)
Definition req_collide : Request.t :=
  Request.mk ∅ (NewBuffer "a=b&d=c") (Url.mk "/v1/photos/generate" "a=1&data=a").

Definition form_params : gmap string string := <["a" := "b"]> (<["d" := "c"]> ∅).

Definition SignRequest := SignRequest (env := Ref.env).
Definition ValidateRequest := ValidateRequest (env := Ref.env).
Definition ValidateResponse := ValidateResponse (env := Ref.env).
Definition getPOSTParams := getPOSTParams (env := Ref.env).
Definition buildSignatureFromIncomeRequest :=
  buildSignatureFromIncomeRequest (env := Ref.env).

(** A response to [req] with the body of the test and the given fields. *)
Definition res_with (h : gmap string (list string)) : Response.t :=
  Response.mk h (NewBuffer "aaaaaaa") (Request.mk ∅ (NewBuffer "") url).

(** The signature of that response for a timestamp text and a secret. *)
Definition res_sign (ts sk : string) : string :=
  hash ("/v1/photos/generate" +:+ "aaaaaaa" +:+ ts +:+ sk).

(** The test's response: the three fields as [SignResponseBody] gives them. *)
Definition res : Response.t :=
  let rs := fst (SignResponseBody sb t0 "/v1/photos/generate" "aaaaaaa") in
  res_with (<["X-Sign" := [Sign rs]]>
              (<["X-Timestamp" := [Timestamp rs]]>
                 (<["X-Access-Key" := [AccessKey rs]]> ∅))).

(** Responses with no access-key field, and with another key. *)
Definition res_no_key : Response.t :=
  res_with (<["X-Sign" := [res_sign "1700000000" "sk"]]>
              (<["X-Timestamp" := ["1700000000"]]> ∅)).

Definition res_other_key : Response.t :=
  res_with (<["X-Sign" := [res_sign "1700000000" "sk"]]>
              (<["X-Timestamp" := ["1700000000"]]>
                 (<["X-Access-Key" := ["someone-else"]]> ∅))).

(** A response whose timestamp field is no number. *)
Definition res_odd : Response.t :=
  res_with (<["X-Sign" := [res_sign "yesterday" "sk"]]>
              (<["X-Timestamp" := ["yesterday"]]>
                 (<["X-Access-Key" := ["ak"]]> ∅))).

(** The test's request as it goes out, with the three fields set. *)
Definition req_sent : Request.t :=
  Request.mk (<["X-Sign" := [hash "/v1/photos/generatea=bd=cdata=a1700000000sk"]]>
                (<["X-Timestamp" := ["1700000000"]]>
                   (<["X-Access-Key" := ["ak"]]> ∅)))
             (NewBuffer "a=b&d=c") url.

Definition req_spaced : Request.t := req_with "X-Timestamp" " 1700000000".

End Sample.

(** * Properties *)

Section Properties.

Context {env : Env}.


(** ** Strings *)

Lemma is_empty_true (s : string) : GoString.is_empty s = true <-> s = "".
Proof. destruct s; simpl; split; congruence. Qed.

Lemma is_empty_false (s : string) : GoString.is_empty s = false <-> s <> "".
Proof. destruct s; simpl; split; congruence. Qed.

Lemma append_cons (c : ascii) (s t : string) : String c s +:+ t = String c (s +:+ t).
Proof. reflexivity. Qed.

Lemma append_nil_l (s : string) : "" +:+ s = s.
Proof. reflexivity. Qed.

Lemma append_nil_r (s : string) : s +:+ "" = s.
Proof. induction s as [|c s IH]; [reflexivity | now rewrite append_cons, IH]. Qed.

Lemma append_assoc (a b c : string) : (a +:+ b) +:+ c = a +:+ (b +:+ c).
Proof. induction a as [|x a IH]; [reflexivity | now rewrite !append_cons, IH]. Qed.

(** ** sort.Strings: a sorted permutation, the only one *)

Lemma string_le_cases (a b : string) : string_le a b <-> string_lt a b \/ a = b.
Proof.
  unfold string_le, string_lt, String.leb, String.ltb.
  destruct (String.compare a b) eqn:E; split; intros H; auto; try discriminate.
  - right. now apply String.compare_eq_iff.
  - destruct H as [H | ->]; [discriminate |].
    assert (Heq : String.compare b b = Eq) by (apply String_as_OT.cmp_eq; reflexivity).
    congruence.
Qed.

Lemma string_lt_trans (a b c : string) : string_lt a b -> string_lt b c -> string_lt a c.
Proof.
  unfold string_lt, String.ltb. intros Hab Hbc.
  destruct (String.compare a b) eqn:E1; try discriminate.
  destruct (String.compare b c) eqn:E2; try discriminate.
  apply String_as_OT.cmp_lt in E1, E2.
  pose proof (String_as_OT.lt_trans _ _ _ E1 E2) as Hac.
  apply String_as_OT.cmp_lt in Hac. unfold String_as_OT.cmp in Hac. now rewrite Hac.
Qed.

Lemma string_lt_irrefl (a : string) : ~ string_lt a a.
Proof.
  unfold string_lt, String.ltb. intros H.
  assert (Heq : String.compare a a = Eq) by (apply String_as_OT.cmp_eq; reflexivity).
  rewrite Heq in H. discriminate.
Qed.

Lemma string_le_trans (a b c : string) : string_le a b -> string_le b c -> string_le a c.
Proof.
  rewrite !string_le_cases. intros [Hab | ->] [Hbc | ->]; auto.
  left. eapply string_lt_trans; eauto.
Qed.

Lemma string_le_antisym (a b : string) : string_le a b -> string_le b a -> a = b.
Proof. apply String.leb_antisym. Qed.

Lemma sort_Strings_perm (l : list string) : Permutation l (sort_Strings l).
Proof. apply StringSort.Permuted_sort. Qed.

Lemma sort_Strings_sorted (l : list string) : StronglySorted string_le (sort_Strings l).
Proof.
  assert (Htr : Transitive (fun x y : string => is_true (StringOrder.leb x y))).
  { intros x y z Hxy Hyz. exact (string_le_trans x y z Hxy Hyz). }
  exact (StringSort.StronglySorted_sort l Htr).
Qed.

(** Two sorted arrangements of the same strings are the same list. *)
Lemma sorted_perm_unique (l1 l2 : list string) :
  StronglySorted string_le l1 -> StronglySorted string_le l2 ->
  Permutation l1 l2 -> l1 = l2.
Proof.
  intros H1. revert l2. induction H1 as [|x l1 Hs1 IH Hall1]; intros l2 H2 Hp.
  - apply Permutation_nil in Hp. now subst.
  - destruct H2 as [|y l2 Hs2 Hall2].
    + apply Permutation_sym, Permutation_nil in Hp. discriminate.
    + assert (Hxy : x = y).
      { apply string_le_antisym.
        - assert (Hin : In y (x :: l1)) by (eapply Permutation_in; [symmetry; exact Hp | now left]).
          destruct Hin as [-> | Hin]; [apply string_le_cases; now right |].
          rewrite List.Forall_forall in Hall1. now apply Hall1.
        - assert (Hin : In x (y :: l2)) by (eapply Permutation_in; [exact Hp | now left]).
          destruct Hin as [-> | Hin]; [apply string_le_cases; now right |].
          rewrite List.Forall_forall in Hall2. now apply Hall2. }
      subst y. f_equal. apply IH; [assumption |].
      eapply Permutation_cons_inv; exact Hp.
Qed.

Lemma sort_Strings_ext (l1 l2 : list string) :
  Permutation l1 l2 -> sort_Strings l1 = sort_Strings l2.
Proof.
  intros Hp. apply sorted_perm_unique; try apply sort_Strings_sorted.
  rewrite <- (sort_Strings_perm l1), <- (sort_Strings_perm l2). exact Hp.
Qed.

(** Without repeated strings the sorted list is strictly increasing. *)
Lemma sorted_NoDup_strict (l : list string) :
  StronglySorted string_le l -> NoDup l -> StronglySorted string_lt l.
Proof.
  induction 1 as [|x l Hs IH Hall]; intros Hnd; constructor.
  - apply IH. now apply NoDup_cons in Hnd.
  - apply NoDup_cons in Hnd. destruct Hnd as [Hnotin _].
    rewrite List.Forall_forall in *. intros y Hy.
    destruct (proj1 (string_le_cases x y) (Hall y Hy)) as [Hlt | ->]; [exact Hlt |].
    exfalso. apply Hnotin. now apply list_elem_of_In.
Qed.

(** ** The canonical text (buildParamsSignatureText) *)

Lemma fold_left_append (f : string -> string) (l : list string) (a : string) :
  fold_left (fun acc k => acc +:+ f k) l a = a +:+ fold_right String.append "" (List.map f l).
Proof.
  revert a. induction l as [|k l IH]; intros a; simpl.
  - now rewrite append_nil_r.
  - rewrite IH. now rewrite append_assoc.
Qed.

Lemma buildParamsSignatureText_ranged_eq (keys : list string) (params : gmap string string)
    (body : string) :
  buildParamsSignatureText_ranged keys params body
  = pairsText params (sort_Strings keys) +:+ body.
Proof.
  unfold buildParamsSignatureText_ranged, pairsText.
  now rewrite (fold_left_append (fun k => k +:+ "=" +:+ default "" (params !! k))).
Qed.

Lemma buildParamsSignatureText_empty (body : string) :
  buildParamsSignatureText ∅ body = body.
Proof.
  unfold buildParamsSignatureText. rewrite map_to_list_empty. reflexivity.
Qed.

(** C2. The canonical text is the pairs [key=value] of every key of the map,
    each once, in strictly ascending byte-wise order of the keys, with no
    delimiter, followed by the body; it does not depend on the order in which
    [range] delivers the keys nor on the order in which the map was filled;
    for the map data:a, a:b, d:c and an empty body it is the text of the
    package's test. *)
Theorem buildParamsSignatureText_canonical (params : gmap string string) (body : string) :
  (exists keys : list string,
      (forall k, k ∈ keys <-> is_Some (params !! k))
      /\ StronglySorted string_lt keys
      /\ buildParamsSignatureText params body = pairsText params keys +:+ body)
  /\ (forall ranged : list string,
        Permutation ranged (map_to_list params).*1 ->
        buildParamsSignatureText_ranged ranged params body
        = buildParamsSignatureText params body)
  /\ (forall l1 l2 : list (string * string),
        NoDup l1.*1 -> Permutation l1 l2 ->
        buildParamsSignatureText (list_to_map l1) body
        = buildParamsSignatureText (list_to_map l2) body)
  /\ buildParamsSignatureText (<["data" := "a"]> (<["a" := "b"]> (<["d" := "c"]> ∅))) ""
     = "a=bd=cdata=a".
Proof.
  split; [| split; [| split]].
  - exists (sort_Strings (map_to_list params).*1).
    split; [intros k; split | split].
    + intros Hk. rewrite <- (sort_Strings_perm _) in Hk.
      apply list_elem_of_fmap in Hk. destruct Hk as [[k' v] [-> Hkv]].
      apply elem_of_map_to_list in Hkv. now exists v.
    + intros [v Hv]. rewrite <- (sort_Strings_perm _).
      apply list_elem_of_fmap. exists (k, v). split; [reflexivity |].
      now apply elem_of_map_to_list.
    + apply sorted_NoDup_strict; [apply sort_Strings_sorted |].
      rewrite <- (sort_Strings_perm _). apply NoDup_fst_map_to_list.
    + apply buildParamsSignatureText_ranged_eq.
  - intros ranged Hp. unfold buildParamsSignatureText.
    rewrite !buildParamsSignatureText_ranged_eq.
    now rewrite (sort_Strings_ext _ _ Hp).
  - intros l1 l2 Hnd Hp. now rewrite (list_to_map_proper l1 l2 Hnd Hp).
  - vm_compute. reflexivity.
Qed.

(** ** strconv.ParseInt reads back what [%d] prints *)

Lemma digit_byte (d : Z) :
  0 <= d < 10 -> Z.of_N (N_of_ascii (Strconv.digit d)) = 48 + d.
Proof.
  intros Hd. unfold Strconv.digit.
  rewrite N_ascii_embedding; lia.
Qed.

Lemma maxUint64_val : Strconv.maxUint64 = 18446744073709551615.
Proof. reflexivity. Qed.

Lemma cutoff10_val : Strconv.cutoff10 = 1844674407370955162.
Proof. reflexivity. Qed.

(** One digit more: no error as long as the value fits. *)
Lemma ParseUint_loop_digit (d n : Z) (rest : string) :
  0 <= d < 10 -> 0 <= n -> n * 10 + d <= Strconv.maxUint64 ->
  Strconv.ParseUint_loop (String (Strconv.digit d) rest) n
  = Strconv.ParseUint_loop rest (n * 10 + d).
Proof.
  intros Hd Hn Hfit. rewrite maxUint64_val in Hfit.
  cbn [Strconv.ParseUint_loop]. rewrite (digit_byte d Hd).
  replace (48 <=? 48 + d) with true by (symmetry; apply Z.leb_le; lia).
  replace (48 + d <=? 57) with true by (symmetry; apply Z.leb_le; lia).
  cbn [andb]. rewrite cutoff10_val, maxUint64_val.
  replace (1844674407370955162 <=? n) with false by (symmetry; apply Z.leb_gt; lia).
  replace (48 + d - 48) with d by lia.
  change (2 ^ 64) with 18446744073709551616.
  rewrite (Z.mod_small (n * 10)) by lia.
  rewrite (Z.mod_small (n * 10 + d)) by lia.
  replace (n * 10 + d <? n * 10) with false by (symmetry; apply Z.ltb_ge; lia).
  replace (18446744073709551615 <? n * 10 + d) with false by (symmetry; apply Z.ltb_ge; lia).
  reflexivity.
Qed.

Lemma scale_pos (fuel : nat) (u : Z) : 0 < scale fuel u.
Proof.
  revert u. induction fuel as [|f IH]; intros u; simpl; [lia |].
  destruct (u <? 10); [lia |]. specialize (IH (u / 10)). lia.
Qed.

Lemma ParseUint_loop_digits (fuel : nat) :
  forall (u n : Z) (acc : string),
    0 <= u < 10 ^ Z.of_nat fuel -> 0 <= n ->
    n * scale fuel u + u <= Strconv.maxUint64 ->
    Strconv.ParseUint_loop (Strconv.digits fuel u acc) n
    = Strconv.ParseUint_loop acc (n * scale fuel u + u).
Proof.
  induction fuel as [|f IH]; intros u n acc Hu Hn Hfit.
  - simpl in *. assert (u = 0) by lia. subst u. f_equal. lia.
  - cbn [Strconv.digits scale] in *.
    destruct (u <? 10) eqn:E.
    + apply Z.ltb_lt in E. apply ParseUint_loop_digit; lia.
    + apply Z.ltb_ge in E.
      pose proof (scale_pos f (u / 10)) as Hs.
      pose proof (Z.div_mod u 10 ltac:(lia)) as Hdm.
      pose proof (Z.mod_pos_bound u 10 ltac:(lia)) as Hmod.
      assert (Hq : 0 <= u / 10 < 10 ^ Z.of_nat f).
      { split; [apply Z.div_pos; lia |].
        apply Z.div_lt_upper_bound; [lia |].
        replace (10 * 10 ^ Z.of_nat f) with (10 ^ Z.of_nat (S f)); [lia |].
        rewrite Nat2Z.inj_succ, Z.pow_succ_r; lia. }
      rewrite IH; [| exact Hq | exact Hn | nia].
      rewrite ParseUint_loop_digit; [f_equal; nia | lia | nia | nia].
Qed.

Lemma digits_head (fuel : nat) :
  forall (u : Z) (acc : string), 0 <= u ->
    exists d rest, 0 <= d < 10 /\ Strconv.digits (S fuel) u acc = String (Strconv.digit d) rest.
Proof.
  induction fuel as [|f IH]; intros u acc Hu; cbn [Strconv.digits].
  - destruct (u <? 10) eqn:E.
    + apply Z.ltb_lt in E. exists u, acc. split; [lia | reflexivity].
    + exists (u mod 10), acc. split; [apply Z.mod_pos_bound; lia | reflexivity].
  - destruct (u <? 10) eqn:E.
    + apply Z.ltb_lt in E. exists u, acc. split; [lia | reflexivity].
    + apply Z.ltb_ge in E.
      destruct (IH (u / 10) (String (Strconv.digit (u mod 10)) acc)) as (d & rest & Hd & Heq).
      { apply Z.div_pos; lia. }
      exists d, rest. split; [exact Hd |]. exact Heq.
Qed.

Lemma digit_not_sign (d : Z) :
  0 <= d < 10 ->
  Ascii.eqb (Strconv.digit d) "+" = false /\ Ascii.eqb (Strconv.digit d) "-" = false.
Proof.
  intros Hd.
  assert (Hc : d = 0 \/ d = 1 \/ d = 2 \/ d = 3 \/ d = 4 \/ d = 5 \/ d = 6 \/ d = 7
               \/ d = 8 \/ d = 9) by lia.
  repeat (destruct Hc as [-> | Hc]; [split; reflexivity |]). subst d. split; reflexivity.
Qed.

Lemma ParseUint_digits (u : Z) :
  0 <= u <= Strconv.maxUint64 ->
  Strconv.ParseUint (Strconv.digits 20 u "") = (u, None).
Proof.
  intros Hu. rewrite maxUint64_val in Hu.
  destruct (digits_head 19 u "" ltac:(lia)) as (d & rest & Hd & Heq).
  unfold Strconv.ParseUint. rewrite Heq. rewrite <- Heq.
  rewrite ParseUint_loop_digits.
  - cbn [Strconv.ParseUint_loop]. f_equal; lia.
  - change (10 ^ Z.of_nat 20) with 100000000000000000000. lia.
  - lia.
  - rewrite maxUint64_val. lia.
Qed.

Lemma wrap64_small (z : Z) : Strconv.in_int64 z -> Strconv.wrap64 z = z.
Proof.
  unfold Strconv.in_int64, Strconv.wrap64.
  change (2 ^ 63) with 9223372036854775808.
  change (2 ^ 64) with 18446744073709551616.
  intros Hz. rewrite Z.mod_small; lia.
Qed.

(** The decimal text of an [int64] parses back to it, with no error. *)
Lemma ParseInt_FormatInt (x : Z) :
  Strconv.in_int64 x -> Strconv.ParseInt (Strconv.FormatInt x) = (x, None).
Proof.
  intros Hx. pose proof Hx as Hx'. unfold Strconv.in_int64 in Hx'.
  change (2 ^ 63) with 9223372036854775808 in Hx'.
  unfold Strconv.FormatInt. destruct (x <? 0) eqn:E.
  - apply Z.ltb_lt in E. cbn [Strconv.ParseInt].
    change (Ascii.eqb "-" "-") with true. change (Ascii.eqb "-" "+") with false.
    cbn [orb]. rewrite ParseUint_digits by (rewrite maxUint64_val; lia).
    change (2 ^ 63) with 9223372036854775808.
    cbn [negb andb].
    replace (9223372036854775808 <? - x) with false by (symmetry; apply Z.ltb_ge; lia).
    f_equal. unfold Strconv.wrap64.
    change (2 ^ 63) with 9223372036854775808.
    change (2 ^ 64) with 18446744073709551616.
    destruct (Z.eq_dec x (-9223372036854775808)) as [-> | Hne]; [reflexivity |].
    rewrite (Z.mod_small (- x + 9223372036854775808)) by lia.
    replace (- (- x + 9223372036854775808 - 9223372036854775808) + 9223372036854775808)
      with (x + 9223372036854775808) by lia.
    rewrite Z.mod_small by lia. lia.
  - apply Z.ltb_ge in E.
    destruct (digits_head 19 x "" E) as (d & rest & Hd & Heq).
    destruct (digit_not_sign d Hd) as [Hplus Hminus].
    unfold Strconv.ParseInt. rewrite Heq. rewrite Hplus, Hminus. cbn [orb].
    rewrite <- Heq. rewrite ParseUint_digits by (rewrite maxUint64_val; lia).
    change (2 ^ 63) with 9223372036854775808.
    cbn [negb andb].
    replace (9223372036854775808 <=? x) with false by (symmetry; apply Z.leb_gt; lia).
    f_equal. apply wrap64_small. exact Hx.
Qed.

(** ** fmt: a format without operands *)

Lemma cut_byte_length (b : ascii) (s lit after : string) :
  Fmt.cut_byte b s = (lit, Some after) ->
  (String.length after < String.length s)%nat.
Proof.
  revert lit. induction s as [| c s IH]; intros lit; cbn [Fmt.cut_byte].
  - discriminate.
  - destruct (Ascii.eqb c b).
    + intros [= <- <-]. cbn. lia.
    + destruct (Fmt.cut_byte b s) as [lit' [after' |]]; intros [= <- <-].
      specialize (IH _ eq_refl). cbn. lia.
Qed.

Lemma skip_flags_length (s : string) :
  (String.length (Fmt.skip_flags s) <= String.length s)%nat.
Proof.
  induction s as [| c s IH]; cbn [Fmt.skip_flags]; [lia |].
  destruct (Fmt.is_flag c); cbn; cbn in IH; lia.
Qed.

Lemma tail_length (s : string) :
  (String.length (Fmt.tail s) <= String.length s)%nat.
Proof. destruct s; cbn; lia. Qed.

Lemma parsenum_loop_length (s : string) (num : Z) (isnum : bool) :
  (String.length (Fmt.parsenum_loop s num isnum).2 <= String.length s)%nat.
Proof.
  revert num isnum. induction s as [| c s IH]; intros num isnum; cbn [Fmt.parsenum_loop].
  - cbn. lia.
  - destruct (_ && _); [| cbn; lia].
    destruct (Fmt.tooLarge num); [cbn; lia |].
    specialize (IH (num * 10 + (Fmt.byte_of c - 48)) true). cbn. lia.
Qed.

Lemma parseArgNumber_length (s : string) :
  (String.length (Fmt.parseArgNumber s).1 <= String.length s)%nat.
Proof.
  unfold Fmt.parseArgNumber. destruct s as [| c s]; [cbn; lia |].
  destruct (_ <? _)%nat; [cbn; lia |].
  destruct (Fmt.cut_byte "]" s) as [inside [after |]] eqn:Hcut; [| cbn; lia].
  apply cut_byte_length in Hcut.
  destruct (Fmt.parsenum inside) as [[n ok] remaining]. cbn. lia.
Qed.

Lemma argNumber_length (p : Fmt.state) :
  (String.length (Fmt.rest (Fmt.argNumber p)) <= String.length (Fmt.rest p))%nat.
Proof.
  unfold Fmt.argNumber. destruct (Fmt.at_byte "[" (Fmt.rest p)); [| cbn; lia].
  pose proof (parseArgNumber_length (Fmt.rest p)) as H.
  destruct (Fmt.parseArgNumber (Fmt.rest p)) as [s' ok]. exact H.
Qed.

Lemma width_length (p : Fmt.state) :
  (String.length (Fmt.rest (Fmt.width p)) <= String.length (Fmt.rest p))%nat.
Proof.
  unfold Fmt.width. destruct (Fmt.at_byte "*" (Fmt.rest p)).
  - apply tail_length.
  - pose proof (parsenum_loop_length (Fmt.rest p) 0 false) as H. unfold Fmt.parsenum.
    destruct (Fmt.parsenum_loop (Fmt.rest p) 0 false) as [[n ok] s']. exact H.
Qed.

Lemma precision_length (p : Fmt.state) :
  (String.length (Fmt.rest (Fmt.precision p)) <= String.length (Fmt.rest p))%nat.
Proof.
  unfold Fmt.precision. destruct (Fmt.at_byte "." (Fmt.rest p)); [| lia].
  match goal with |- context [Fmt.argNumber ?q] =>
    pose proof (argNumber_length q) as H1; set (p1 := Fmt.argNumber q) in *
  end.
  cbn [Fmt.rest] in H1. pose proof (tail_length (Fmt.rest p)) as H0.
  destruct (Fmt.at_byte "*" (Fmt.rest p1)).
  - pose proof (tail_length (Fmt.rest p1)). cbn [Fmt.rest]. lia.
  - pose proof (parsenum_loop_length (Fmt.rest p1) 0 false) as H. unfold Fmt.parsenum.
    destruct (Fmt.parsenum_loop (Fmt.rest p1) 0 false) as [[n ok] s']. cbn in *. lia.
Qed.

Lemma decode_verb_length (s : string) :
  (String.length (Fmt.decode_verb s).2 <= String.length s)%nat.
Proof. unfold Fmt.decode_verb. repeat case_match; cbn; lia. Qed.

(** A verb reads no further than the format it is given. *)
Lemma verb_length (s : string) :
  (String.length (Fmt.verb s).2 <= String.length s)%nat.
Proof.
  unfold Fmt.verb.
  match goal with |- context [Fmt.argNumber ?q] =>
    pose proof (argNumber_length q) as H1; set (p1 := Fmt.argNumber q) in *
  end.
  cbn [Fmt.rest] in H1. pose proof (skip_flags_length s) as H0.
  pose proof (width_length p1) as H2.
  pose proof (precision_length (Fmt.width p1)) as H3.
  set (p3 := Fmt.precision (Fmt.width p1)) in *.
  assert (H4 : (String.length
                  (Fmt.rest (if Fmt.afterIndex p3 then p3 else Fmt.argNumber p3))
                <= String.length (Fmt.rest p3))%nat).
  { destruct (Fmt.afterIndex p3); [lia | apply argNumber_length]. }
  set (p4 := if Fmt.afterIndex p3 then p3 else Fmt.argNumber p3) in *.
  destruct (GoString.is_empty (Fmt.rest p4)); [cbn; lia |].
  pose proof (decode_verb_length (Fmt.rest p4)) as H5.
  destruct (Fmt.decode_verb (Fmt.rest p4)) as [r s']. cbn in *. lia.
Qed.

(** The turns of [doPrintf] are bounded by the length of the format: more
    fuel than that changes nothing, so [Sprintf] never runs out of it. *)
Lemma doPrintf_fuel (fuel fuel' : nat) (format : string) :
  (String.length format < fuel)%nat ->
  (String.length format < fuel')%nat ->
  Fmt.doPrintf fuel format = Fmt.doPrintf fuel' format.
Proof.
  revert fuel' format. induction fuel as [| fuel IH]; intros fuel' format H H'; [lia |].
  destruct fuel' as [| fuel']; [lia |]. cbn [Fmt.doPrintf].
  destruct (Fmt.cut_byte "%" format) as [lit [s |]] eqn:Hcut; [| reflexivity].
  apply cut_byte_length in Hcut. pose proof (verb_length s) as Hv.
  destruct (Fmt.verb s) as [out s']. cbn [snd] in Hv.
  rewrite (IH fuel' s') by lia. reflexivity.
Qed.

Lemma doPrintf_S (fuel : nat) (format : string) :
  Fmt.doPrintf (S fuel) format
  = match Fmt.cut_byte "%" format with
    | (lit, None) => lit
    | (lit, Some s) => let '(out, s') := Fmt.verb s in lit +:+ out +:+ Fmt.doPrintf fuel s'
    end.
Proof. reflexivity. Qed.

Lemma doPrintf_cons (fuel : nat) (c : ascii) (format : string) :
  Ascii.eqb c "%" = false ->
  Fmt.doPrintf (S fuel) (String c format) = String c (Fmt.doPrintf (S fuel) format).
Proof.
  intros Hc. rewrite (doPrintf_S fuel (String c format)), (doPrintf_S fuel format).
  cbn [Fmt.cut_byte]. rewrite Hc.
  destruct (Fmt.cut_byte "%" format) as [lit [s |]]; [| reflexivity].
  destruct (Fmt.verb s) as [out s']. reflexivity.
Qed.

(** A byte other than [%] is copied. *)
Lemma Sprintf_cons (c : ascii) (format : string) :
  Ascii.eqb c "%" = false ->
  Fmt.Sprintf (String c format) = String c (Fmt.Sprintf format).
Proof.
  intros Hc. unfold Fmt.Sprintf. rewrite doPrintf_cons by exact Hc.
  f_equal. apply doPrintf_fuel; cbn; lia.
Qed.

(** Text without a [%] before a format is copied. *)
Lemma Sprintf_app (lit format : string) :
  GoString.Contains lit "%" = false ->
  Fmt.Sprintf (lit +:+ format) = lit +:+ Fmt.Sprintf format.
Proof.
  induction lit as [| c lit IH]; intros H; [reflexivity |].
  cbn [GoString.Contains GoString.HasPrefix] in H.
  apply orb_false_elim in H as [Hc H].
  replace (GoString.HasPrefix lit "") with true in Hc by (now destruct lit).
  rewrite andb_true_r, Ascii.eqb_sym in Hc.
  rewrite !append_cons, Sprintf_cons by exact Hc. now rewrite IH.
Qed.

(** A format without a [%] is printed as it is. *)
Lemma Sprintf_literal (format : string) :
  GoString.Contains format "%" = false -> Fmt.Sprintf format = format.
Proof.
  intros H. pose proof (Sprintf_app format EmptyString H) as Happ.
  assert (Hr : forall s, s +:+ EmptyString = s).
  { induction s as [| c s IH]; [reflexivity |]. now rewrite append_cons, IH. }
  now rewrite !Hr in Happ.
Qed.

(** ** Header fields *)

Lemma Header_Get_Set_eq (h : gmap string (list string)) (key value : string) :
  Header_Get (Header_Set h key value) key = value.
Proof. unfold Header_Get, Header_Set. now rewrite lookup_insert_eq. Qed.

Lemma Header_Get_Set_ne (h : gmap string (list string)) (key key' value : string) :
  CanonicalMIMEHeaderKey key <> CanonicalMIMEHeaderKey key' ->
  Header_Get (Header_Set h key value) key' = Header_Get h key'.
Proof. intros Hne. unfold Header_Get, Header_Set. now rewrite lookup_insert_ne. Qed.

(** ** The parameter maps *)

Lemma getGETParams_lookup (r : Request.t) (k : string) :
  getGETParams r !! k = URL_Query (Request.URL r) !! k ≫= head.
Proof.
  unfold getGETParams. revert k.
  apply (map_fold_weak_ind
           (fun (acc : gmap string string) (m : gmap string (list string)) =>
              forall k, acc !! k = m !! k ≫= head)).
  - intros k. now rewrite !lookup_empty.
  - intros i x m acc Hnone IH k.
    destruct (decide (i = k)) as [-> | Hne].
    + rewrite lookup_insert_eq. destruct x as [|v0 x]; simpl.
      * rewrite IH, Hnone. reflexivity.
      * now rewrite lookup_insert_eq.
    + rewrite (lookup_insert_ne m) by exact Hne. destruct x as [|v0 x].
      * apply IH.
      * rewrite lookup_insert_ne by exact Hne. apply IH.
Qed.

Lemma formParams_lookup (values : gmap string (list string)) (k : string) :
  map_fold (fun k (_ : list string) (params : gmap string string) =>
              <[k := Values_Get values k]> params) ∅ values !! k
  = (fun vs => hd "" vs) <$> values !! k.
Proof.
  assert (Hgen : forall m : gmap string (list string),
             forall k, map_fold (fun k (_ : list string) (params : gmap string string) =>
                                   <[k := Values_Get values k]> params) ∅ m !! k
                       = (fun _ => Values_Get values k) <$> m !! k).
  { intros m.
    apply (map_fold_weak_ind
             (fun (acc : gmap string string) (m : gmap string (list string)) =>
                forall k, acc !! k = (fun _ => Values_Get values k) <$> m !! k)).
    - intros k'. now rewrite !lookup_empty.
    - intros i x m' acc Hnone IH k'.
      destruct (decide (i = k')) as [-> | Hne].
      + now rewrite !lookup_insert_eq.
      + rewrite !lookup_insert_ne by exact Hne. apply IH. }
  rewrite Hgen. unfold Values_Get.
  destruct (values !! k) as [[|v vs]|]; reflexivity.
Qed.

Lemma mergeParams_lookup (queryParams postParams : gmap string string) (k : string) :
  mergeParams queryParams postParams !! k
  = match postParams !! k with
    | Some v => Some v
    | None => queryParams !! k
    end.
Proof.
  unfold mergeParams. destruct (0 <? Z.of_nat (size postParams)) eqn:E.
  - revert k.
    apply (map_fold_weak_ind
             (fun (acc m : gmap string string) =>
                forall k, acc !! k = match m !! k with
                                     | Some v => Some v
                                     | None => queryParams !! k
                                     end)).
    + intros k. now rewrite lookup_empty.
    + intros i x m acc Hnone IH k.
      destruct (decide (i = k)) as [-> | Hne].
      * now rewrite !lookup_insert_eq.
      * rewrite !lookup_insert_ne by exact Hne. apply IH.
  - apply Z.ltb_ge in E.
    assert (Hemp : postParams = ∅) by (apply map_size_empty_iff; lia).
    subst postParams. now rewrite lookup_empty.
Qed.

Lemma mergeParams_union (queryParams postParams : gmap string string) :
  mergeParams queryParams postParams = postParams ∪ queryParams.
Proof.
  apply map_eq. intros k. rewrite mergeParams_lookup, lookup_union.
  destruct (postParams !! k), (queryParams !! k); reflexivity.
Qed.

(** ** getPOSTParams *)

Arguments hash : simpl never.
Arguments GoString.Contains : simpl never.
Arguments buildParamsSignatureText : simpl never.
Arguments Strconv.FormatInt : simpl never.
Arguments Strconv.ParseInt : simpl never.
Arguments Fmt.Sprintf : simpl never.
Arguments mergeParams : simpl never.
Arguments getGETParams : simpl never.

(** A successful extraction has read the whole body and put it back. *)
Lemma getPOSTParams_ok_inv (r r1 : Request.t) (body : string) (post : gmap string string) :
  getPOSTParams r = ((body, post, None), r1) ->
  fault (Request.Body r) = None
  /\ r1 = Request.with_Body r (NewBuffer (pending (Request.Body r))).
Proof.
  unfold getPOSTParams, ReadAll. intros H.
  repeat case_match; simplify_eq; auto.
Qed.

(** Extraction leaves the header and the URL alone, whatever it returns. *)
Lemma getPOSTParams_frame (r : Request.t) :
  Request.Header (snd (getPOSTParams r)) = Request.Header r
  /\ Request.URL (snd (getPOSTParams r)) = Request.URL r.
Proof.
  unfold getPOSTParams, ReadAll. repeat case_match; simplify_eq; auto.
Qed.

(** A body that can be read to its end is readable again afterwards, and
    holds the same bytes, whatever extraction returns. *)
Lemma getPOSTParams_body (r : Request.t) :
  fault (Request.Body r) = None ->
  fst (ReadAll (Request.Body (snd (getPOSTParams r)))) = (pending (Request.Body r), None).
Proof.
  intros Hf. unfold getPOSTParams, ReadAll.
  repeat case_match; simplify_eq; cbn; try rewrite Hf; try reflexivity; congruence.
Qed.

(** Extraction goes by the content type and the body only: on the request it
    left behind, under any header with the same content type, it returns the
    same again and changes nothing. *)
Lemma getPOSTParams_again (r r1 : Request.t) (body : string) (post : gmap string string)
    (h : gmap string (list string)) :
  getPOSTParams r = ((body, post, None), r1) ->
  Header_Get h "Content-Type" = Header_Get (Request.Header r) "Content-Type" ->
  getPOSTParams (Request.with_Header r1 h) = ((body, post, None), Request.with_Header r1 h).
Proof.
  intros H Hct. destruct (getPOSTParams_ok_inv _ _ _ _ H) as [Hf ->].
  revert H. unfold getPOSTParams, ReadAll. cbn. rewrite Hct, Hf.
  destruct r as [h0 [p f] u]. cbn in *. subst f.
  repeat case_match; intros; simplify_eq; reflexivity.
Qed.

(** X18. Extraction dispatches on the declared content type: without the
    header it is the form type; a media type that contains application/json
    makes the raw body the body text and leaves the parameters empty; one
    that contains the form type has the body parsed into parameters (the
    first value of each key) and leaves the body text empty; every other
    media type is refused by an error whose text is the fixed prefix
    followed by the media type as [fmt] prints it when it is read as a
    format, which is the media type itself when it holds no [%]. *)
Theorem getPOSTParams_dispatch (r : Request.t) (mt : string) :
  ParseMediaType (contentTypeOf r) = (mt, None) ->
  fault (Request.Body r) = None ->
  (Header_Get (Request.Header r) "Content-Type" = "" ->
     contentTypeOf r = "application/x-www-form-urlencoded"
     /\ fst (getPOSTParams r)
        = fst (getPOSTParams
                 (Request.with_Header r
                    (Header_Set (Request.Header r) "Content-Type"
                                "application/x-www-form-urlencoded"))))
  /\ (GoString.Contains mt "application/json" = true ->
        fst (getPOSTParams r) = (pending (Request.Body r), ∅, None))
  /\ (GoString.Contains mt "application/json" = false ->
      GoString.Contains mt "application/x-www-form-urlencoded" = true ->
        match ParseQuery (pending (Request.Body r)) with
        | (values, None) =>
            exists params : gmap string string,
              fst (getPOSTParams r) = ("", params, None)
              /\ forall k, params !! k = (fun vs => hd "" vs) <$> values !! k
        | (_, Some err) =>
            fst (getPOSTParams r)
            = ("", ∅, Some (Errorf ("failed to parse form data: " +:+ err)))
        end)
  /\ (GoString.Contains mt "application/json" = false ->
      GoString.Contains mt "application/x-www-form-urlencoded" = false ->
        fst (getPOSTParams r)
        = ("", ∅, Some (Errorf ("unsupported content type: " +:+ Fmt.Sprintf mt)))
        /\ (GoString.Contains mt "%" = false ->
              fst (getPOSTParams r)
              = ("", ∅, Some (Errorf ("unsupported content type: " +:+ mt))))).
Proof.
  intros Hmt Hf. unfold contentTypeOf in Hmt.
  split; [| split; [| split]].
  - intros Habs. split.
    + unfold contentTypeOf. now rewrite Habs.
    + unfold getPOSTParams, ReadAll.
      cbn [Request.Header Request.with_Header Request.Body].
      rewrite Header_Get_Set_eq, Habs. cbn [GoString.is_empty].
      unfold defaultContentType.
      destruct (ParseMediaType "application/x-www-form-urlencoded") as [ct [err|]];
        [reflexivity |].
      destruct (fault (Request.Body r)); [reflexivity |].
      destruct (GoString.Contains ct "application/json"); [reflexivity |].
      destruct (GoString.Contains ct "application/x-www-form-urlencoded"); [| reflexivity].
      destruct (ParseQuery (pending (Request.Body r))) as [values [err|]]; reflexivity.
  - intros Hjson. unfold getPOSTParams, ReadAll. rewrite Hmt, Hf, Hjson. reflexivity.
  - intros Hjson Hform. unfold getPOSTParams, ReadAll. rewrite Hmt, Hf, Hjson.
    unfold defaultContentType. rewrite Hform.
    destruct (ParseQuery (pending (Request.Body r))) as [values [err|]]; [reflexivity |].
    eexists. split; [reflexivity |]. intros k. apply formParams_lookup.
  - intros Hjson Hform.
    assert (Hget : fst (getPOSTParams r)
                   = ("", ∅, Some (Errorf ("unsupported content type: " +:+ Fmt.Sprintf mt)))).
    { unfold getPOSTParams, ReadAll. rewrite Hmt, Hf, Hjson.
      unfold defaultContentType. rewrite Hform.
      cbn [fst]. now rewrite Sprintf_app by reflexivity. }
    split; [exact Hget |].
    intros Hlit. now rewrite Hget, Sprintf_literal by exact Hlit.
Qed.

(** ** buildSignatureFromIncomeRequest and SignRequest *)

Lemma buildSignature_unfold (s : SignatureBuilder) (now : Z) (r r1 : Request.t)
    (body : string) (post : gmap string string) :
  getPOSTParams r = ((body, post, None), r1) ->
  buildSignatureFromIncomeRequest s now r
  = let ts := signingTimestamp now (Request.Header r) in
    let finalText :=
      Url.Path (Request.URL r)
      +:+ buildParamsSignatureText (mergeParams (getGETParams r) post) body
      +:+ ts +:+ secretKey s in
    ((Some (mkSignatureResult finalText ts (hash finalText) ""), None), r1).
Proof.
  intros H. unfold buildSignatureFromIncomeRequest, signingTimestamp. rewrite H.
  destruct (getPOSTParams_ok_inv _ _ _ _ H) as [_ ->]. reflexivity.
Qed.

Lemma buildSignature_ok_inv (s : SignatureBuilder) (now : Z) (r r1 : Request.t)
    (rs : SignatureResult) :
  buildSignatureFromIncomeRequest s now r = ((Some rs, None), r1) ->
  exists body post, getPOSTParams r = ((body, post, None), r1).
Proof.
  unfold buildSignatureFromIncomeRequest.
  destruct (getPOSTParams r) as [[[body post] [err|]] r2]; intros H; [discriminate |].
  exists body, post. congruence.
Qed.

Lemma buildSignature_request (s : SignatureBuilder) (now : Z) (r : Request.t) :
  snd (buildSignatureFromIncomeRequest s now r) = snd (getPOSTParams r).
Proof.
  unfold buildSignatureFromIncomeRequest.
  destruct (getPOSTParams r) as [[[body post] [err|]] r2]; reflexivity.
Qed.

Lemma SignRequest_ok_inv (s : SignatureBuilder) (now : Z) (r r' : Request.t)
    (rs : SignatureResult) :
  SignRequest s now r = ((Some rs, None), r') ->
  exists r1,
    buildSignatureFromIncomeRequest s now r = ((Some rs, None), r1)
    /\ r' = Request.with_Header r1
              (Header_Set
                 (Header_Set
                    (Header_Set (Request.Header r1) HeadKeyTimestamp (Timestamp rs))
                    HeadKeyAccessKey (accessKey s))
                 HeadKeySign (Sign rs)).
Proof.
  unfold SignRequest.
  destruct (buildSignatureFromIncomeRequest s now r) as [[[rs0|] [err|]] r1];
    intros H; simplify_eq.
  exists r1. split; reflexivity.
Qed.

(** Whatever it returns, [SignRequest] leaves the [AccessKey] field of its
    result empty: [buildSignatureFromIncomeRequest] never fills it. *)
Lemma SignRequest_AccessKey_empty (s : SignatureBuilder) (now : Z) (r r' : Request.t)
    (rs : SignatureResult) :
  SignRequest s now r = ((Some rs, None), r') -> AccessKey rs = "".
Proof.
  intros H. destruct (SignRequest_ok_inv _ _ _ _ _ H) as (r1 & Hb & _).
  destruct (buildSignature_ok_inv _ _ _ _ _ Hb) as (body & post & Hp).
  rewrite (buildSignature_unfold s now r r1 body post Hp) in Hb.
  cbv zeta in Hb. now simplify_eq.
Qed.

Lemma SignRequest_Timestamp (s : SignatureBuilder) (now : Z) (r r' : Request.t)
    (rs : SignatureResult) :
  SignRequest s now r = ((Some rs, None), r') ->
  Timestamp rs = signingTimestamp now (Request.Header r).
Proof.
  intros H. destruct (SignRequest_ok_inv _ _ _ _ _ H) as (r1 & Hb & _).
  destruct (buildSignature_ok_inv _ _ _ _ _ Hb) as (body & post & Hp).
  rewrite (buildSignature_unfold s now r r1 body post Hp) in Hb.
  cbv zeta in Hb. now simplify_eq.
Qed.

Lemma signingTimestamp_absent (now : Z) (h : gmap string (list string)) :
  Header_Get h HeadKeyTimestamp = "" ->
  signingTimestamp now h = Strconv.FormatInt now.
Proof. intros H. unfold signingTimestamp. now rewrite H. Qed.

(** C7. With a body that parsed into form parameters, the query-string and
    the form parameters are merged before the canonical text is built, and
    where both have a key the form's value stands in the merged map. *)
Theorem buildSignature_merges_params (s : SignatureBuilder) (now : Z) (r r1 : Request.t)
    (body : string) (post : gmap string string) :
  getPOSTParams r = ((body, post, None), r1) ->
  exists (merged : gmap string string) (rs : SignatureResult),
    fst (buildSignatureFromIncomeRequest s now r) = (Some rs, None)
    /\ FinalText rs
       = Url.Path (Request.URL r) +:+ buildParamsSignatureText merged body
         +:+ Timestamp rs +:+ secretKey s
    /\ Sign rs = hash (FinalText rs)
    /\ merged = post ∪ getGETParams r
    /\ (forall k v, post !! k = Some v -> merged !! k = Some v)
    /\ (forall k, post !! k = None -> merged !! k = getGETParams r !! k).
Proof.
  intros H. rewrite (buildSignature_unfold s now r r1 body post H). cbv zeta.
  eexists (mergeParams (getGETParams r) post), _.
  split; [reflexivity |]. cbn [FinalText Timestamp Sign].
  split; [reflexivity |]. split; [reflexivity |].
  split; [apply mergeParams_union |]. split.
  - intros k v Hk. now rewrite mergeParams_lookup, Hk.
  - intros k Hk. now rewrite mergeParams_lookup, Hk.
Qed.

Lemma signed_header_lookups (h : gmap string (list string)) (ts ak sg : string) :
  CanonicalMIMEHeaderKey HeadKeyTimestamp <> CanonicalMIMEHeaderKey HeadKeySign ->
  CanonicalMIMEHeaderKey HeadKeyTimestamp <> CanonicalMIMEHeaderKey HeadKeyAccessKey ->
  CanonicalMIMEHeaderKey HeadKeySign <> CanonicalMIMEHeaderKey HeadKeyAccessKey ->
  let h' := Header_Set (Header_Set (Header_Set h HeadKeyTimestamp ts) HeadKeyAccessKey ak)
                       HeadKeySign sg in
  h' !! CanonicalMIMEHeaderKey HeadKeyTimestamp = Some [ts]
  /\ h' !! CanonicalMIMEHeaderKey HeadKeyAccessKey = Some [ak]
  /\ h' !! CanonicalMIMEHeaderKey HeadKeySign = Some [sg].
Proof.
  intros H1 H2 H3. cbv zeta. unfold Header_Set. split; [| split].
  - rewrite !lookup_insert_ne by congruence. apply lookup_insert_eq.
  - rewrite lookup_insert_ne by congruence. apply lookup_insert_eq.
  - apply lookup_insert_eq.
Qed.

Lemma Header_Get_lookup (h : gmap string (list string)) (key v : string) :
  h !! CanonicalMIMEHeaderKey key = Some [v] -> Header_Get h key = v.
Proof. intros H. unfold Header_Get. now rewrite H. Qed.

(** The same header at any name: the field set last wins. *)
Lemma signed_header_lookup (h : gmap string (list string)) (ts ak sg k : string) :
  Header_Set (Header_Set (Header_Set h HeadKeyTimestamp ts) HeadKeyAccessKey ak)
             HeadKeySign sg !! k
  = if decide (k = CanonicalMIMEHeaderKey HeadKeySign) then Some [sg]
    else if decide (k = CanonicalMIMEHeaderKey HeadKeyAccessKey) then Some [ak]
    else if decide (k = CanonicalMIMEHeaderKey HeadKeyTimestamp) then Some [ts]
    else h !! k.
Proof.
  unfold Header_Set. repeat case_decide; subst.
  - apply lookup_insert_eq.
  - rewrite lookup_insert_ne by congruence. apply lookup_insert_eq.
  - rewrite !lookup_insert_ne by congruence. apply lookup_insert_eq.
  - now rewrite !lookup_insert_ne by congruence.
Qed.

(** C8. A successful [SignRequest] signs with the timestamp the header held,
    or with the clock's seconds in decimal when it held none, and changes the
    header only by setting the timestamp, access-key and signature fields.
    The header that comes back holds, at the canonical name of the signature
    field, the signature; at that of the access-key field, the credential's
    identifier; at that of the timestamp field, the signing timestamp; and
    at every other name what the request's header held.  With three distinct
    field names each of the three reads back, by lookup and by [Header.Get],
    as the value signed. *)
Theorem SignRequest_headers (s : SignatureBuilder) (now : Z) (r r' : Request.t)
    (rs : SignatureResult) :
  SignRequest s now r = ((Some rs, None), r') ->
  (Header_Get (Request.Header r) HeadKeyTimestamp <> "" ->
     Timestamp rs = Header_Get (Request.Header r) HeadKeyTimestamp)
  /\ (Header_Get (Request.Header r) HeadKeyTimestamp = "" ->
        Timestamp rs = Strconv.FormatInt now
        /\ (Strconv.in_int64 now -> Strconv.ParseInt (Timestamp rs) = (now, None)))
  /\ (exists text : string,
        FinalText rs = text +:+ Timestamp rs +:+ secretKey s
        /\ Sign rs = hash (FinalText rs))
  /\ Request.Header r'
     = Header_Set
         (Header_Set
            (Header_Set (Request.Header r) HeadKeyTimestamp (Timestamp rs))
            HeadKeyAccessKey (accessKey s))
         HeadKeySign (Sign rs)
  /\ (forall k : string,
        k <> CanonicalMIMEHeaderKey HeadKeyTimestamp ->
        k <> CanonicalMIMEHeaderKey HeadKeyAccessKey ->
        k <> CanonicalMIMEHeaderKey HeadKeySign ->
        Request.Header r' !! k = Request.Header r !! k)
  /\ (forall k : string,
        Request.Header r' !! k
        = if decide (k = CanonicalMIMEHeaderKey HeadKeySign) then Some [Sign rs]
          else if decide (k = CanonicalMIMEHeaderKey HeadKeyAccessKey)
               then Some [accessKey s]
          else if decide (k = CanonicalMIMEHeaderKey HeadKeyTimestamp)
               then Some [Timestamp rs]
          else Request.Header r !! k)
  /\ (NoDup [CanonicalMIMEHeaderKey HeadKeyTimestamp; CanonicalMIMEHeaderKey HeadKeySign;
             CanonicalMIMEHeaderKey HeadKeyAccessKey] ->
        Request.Header r' !! CanonicalMIMEHeaderKey HeadKeyTimestamp = Some [Timestamp rs]
        /\ Request.Header r' !! CanonicalMIMEHeaderKey HeadKeyAccessKey = Some [accessKey s]
        /\ Request.Header r' !! CanonicalMIMEHeaderKey HeadKeySign = Some [Sign rs]
        /\ Header_Get (Request.Header r') HeadKeyTimestamp = Timestamp rs
        /\ Header_Get (Request.Header r') HeadKeyAccessKey = accessKey s
        /\ Header_Get (Request.Header r') HeadKeySign = Sign rs).
Proof.
  intros H. destruct (SignRequest_ok_inv _ _ _ _ _ H) as (r1 & Hb & ->).
  destruct (buildSignature_ok_inv _ _ _ _ _ Hb) as (body & post & Hp).
  rewrite (buildSignature_unfold s now r r1 body post Hp) in Hb.
  cbv zeta in Hb. simplify_eq. cbn [Timestamp Sign].
  destruct (getPOSTParams_ok_inv _ _ _ _ Hp) as [_ ->].
  cbn [Request.Header Request.with_Header Request.with_Body].
  unfold signingTimestamp.
  split; [| split; [| split; [| split; [| split; [| split]]]]].
  - intros Hne. apply is_empty_false in Hne. now rewrite Hne.
  - intros Heq. rewrite Heq. cbn [GoString.is_empty].
    split; [reflexivity |]. apply ParseInt_FormatInt.
  - cbn [FinalText].
    exists (Url.Path (Request.URL r)
            +:+ buildParamsSignatureText (mergeParams (getGETParams r) post) body).
    split; [| reflexivity]. now rewrite !append_assoc.
  - reflexivity.
  - intros k Hts Hak Hsg. unfold Header_Set.
    rewrite !lookup_insert_ne by congruence. reflexivity.
  - intros k. apply signed_header_lookup.
  - intros Hnd. rewrite !NoDup_cons, !not_elem_of_cons in Hnd.
    destruct Hnd as ((H1 & H2 & _) & (H3 & _) & _).
    match goal with |- context [Header_Set (Header_Set (Header_Set ?h _ ?ts) _ ?ak) _ ?sg] =>
      destruct (signed_header_lookups h ts ak sg H1 H2 H3) as (Lts & Lak & Lsg)
    end.
    cbv zeta in Lts, Lak, Lsg.
    repeat split; try assumption; apply Header_Get_lookup; assumption.
Qed.

(** ** ValidateRequest *)

Lemma wrap64_range (z : Z) : Strconv.in_int64 (Strconv.wrap64 z).
Proof.
  unfold Strconv.in_int64, Strconv.wrap64.
  change (2 ^ 63) with 9223372036854775808.
  change (2 ^ 64) with 18446744073709551616.
  pose proof (Z.mod_pos_bound (z + 9223372036854775808) 18446744073709551616 ltac:(lia)).
  lia.
Qed.

(** As long as [now - timestamp] does not leave [int64], the test compares
    the age of the timestamp with the window. *)
Lemma expired_in_range (s : SignatureBuilder) (now timestamp : Z) :
  Strconv.in_int64 (now - timestamp) ->
  expired s now timestamp = true <-> 0 < expiredIn s /\ expiredIn s < now - timestamp.
Proof.
  intros Hr. unfold expired, Strconv.int_of_int64, Strconv.sub64.
  rewrite !(wrap64_small (now - timestamp)) by exact Hr.
  rewrite andb_true_iff, !Z.ltb_lt. reflexivity.
Qed.

Lemma not_expired (s : SignatureBuilder) (now timestamp : Z) :
  expiredIn s <= 0 \/ - 2 ^ 63 <= now - timestamp <= expiredIn s ->
  expired s now timestamp = false.
Proof.
  intros H. unfold expired. apply andb_false_iff.
  destruct H as [H | H]; [left; apply Z.ltb_ge; lia | right].
  apply Z.ltb_ge. unfold Strconv.int_of_int64, Strconv.sub64.
  destruct (Z_lt_dec (now - timestamp) (2 ^ 63)) as [Hlt | Hge].
  - rewrite !(wrap64_small (now - timestamp)) by (unfold Strconv.in_int64; lia). lia.
  - pose proof (wrap64_range (Strconv.wrap64 (now - timestamp))) as Hw.
    unfold Strconv.in_int64 in Hw. lia.
Qed.

Lemma ParseInt_nonempty (ts : string) (t : Z) :
  Strconv.ParseInt ts = (t, None) -> GoString.is_empty ts = false.
Proof. destruct ts; [discriminate | reflexivity]. Qed.

Lemma ValidateRequest_unfold (s : SignatureBuilder) (now : Z) (r : Request.t) :
  ValidateRequest s now r
  = let ts := Header_Get (Request.Header r) HeadKeyTimestamp in
    match Strconv.ParseInt ts with
    | (_, Some e) => (Some (NumError "ParseInt" ts e), r)
    | (timestamp, None) =>
        if expired s now timestamp then (Some (Errorf "timestamp expired"), r)
        else
          match buildSignatureFromIncomeRequest s now r with
          | ((Some rs, None), r) =>
              if negb (String.eqb (Sign rs) (Header_Get (Request.Header r) HeadKeySign))
              then (Some (Errorf "signature validation failed"), r)
              else (None, r)
          | ((_, err), r) => (err, r)
          end
    end.
Proof. reflexivity. Qed.

(** [ValidateRequest] reads the clock once: a request whose timestamp field
    holds something is signed again with that, whatever the clock says. *)
Lemma buildSignature_clock (s : SignatureBuilder) (now now' : Z) (r : Request.t) :
  Header_Get (Request.Header r) HeadKeyTimestamp <> "" ->
  buildSignatureFromIncomeRequest s now r = buildSignatureFromIncomeRequest s now' r.
Proof.
  intros Hne. apply is_empty_false in Hne.
  unfold buildSignatureFromIncomeRequest.
  destruct (getPOSTParams r) as [[[body post] [err|]] r1] eqn:Hp; [reflexivity |].
  destruct (getPOSTParams_frame r) as [Hh _]. rewrite Hp in Hh. cbn [snd] in Hh.
  now rewrite Hh, Hne.
Qed.

Lemma distinct4 (a b c d : string) :
  NoDup [a; b; c; d] -> a <> b /\ a <> c /\ a <> d /\ b <> c /\ b <> d /\ c <> d.
Proof.
  intros H. rewrite !NoDup_cons, !not_elem_of_cons in H. tauto.
Qed.

(** C1. A request that [SignRequest] has signed validates under the same
    credential, provided the timestamp it was signed with is a decimal
    [int64] whose age at validation is within the window (or the window is
    not positive).  A request that had no timestamp header is signed with
    the clock's reading, which is such a timestamp: it validates as long as
    the time elapsed since signing is within the window. *)
Theorem sign_then_validate (s : SignatureBuilder) (now0 now1 : Z) (r r' : Request.t)
    (rs : SignatureResult) :
  NoDup [CanonicalMIMEHeaderKey HeadKeyTimestamp; CanonicalMIMEHeaderKey HeadKeySign;
         CanonicalMIMEHeaderKey HeadKeyAccessKey; CanonicalMIMEHeaderKey "Content-Type"] ->
  SignRequest s now0 r = ((Some rs, None), r') ->
  (forall t : Z,
     Strconv.ParseInt (Timestamp rs) = (t, None) ->
     expiredIn s <= 0 \/ - 2 ^ 63 <= now1 - t <= expiredIn s ->
     ValidateRequest s now1 r' = (None, r'))
  /\ (Header_Get (Request.Header r) HeadKeyTimestamp = "" ->
      Strconv.in_int64 now0 ->
      expiredIn s <= 0 \/ 0 <= now1 - now0 <= expiredIn s ->
      ValidateRequest s now1 r' = (None, r')).
Proof.
  intros Hnd Hsign.
  destruct (distinct4 _ _ _ _ Hnd) as (Hts_sg & Hts_ak & Hts_ct & Hsg_ak & Hsg_ct & Hak_ct).
  assert (Hgen : forall t : Z,
             Strconv.ParseInt (Timestamp rs) = (t, None) ->
             expiredIn s <= 0 \/ - 2 ^ 63 <= now1 - t <= expiredIn s ->
             ValidateRequest s now1 r' = (None, r')).
  { intros t Hparse Hfresh.
    destruct (SignRequest_ok_inv _ _ _ _ _ Hsign) as (r1 & Hb & ->).
    destruct (buildSignature_ok_inv _ _ _ _ _ Hb) as (body & post & Hp).
    rewrite (buildSignature_unfold s now0 r r1 body post Hp) in Hb.
    cbv zeta in Hb. simplify_eq. cbn [Timestamp Sign] in *.
    destruct (getPOSTParams_frame r) as [Hh Hu]. rewrite Hp in Hh, Hu. cbn [snd] in Hh, Hu.
    rewrite Hh.
    set (ts := signingTimestamp now0 (Request.Header r)) in *.
    set (ft := Url.Path (Request.URL r)
               +:+ buildParamsSignatureText (mergeParams (getGETParams r) post) body
               +:+ ts +:+ secretKey s).
    set (h' := Header_Set
                 (Header_Set (Header_Set (Request.Header r) HeadKeyTimestamp ts)
                             HeadKeyAccessKey (accessKey s))
                 HeadKeySign (hash ft)).
    assert (Hget_ts : Header_Get h' HeadKeyTimestamp = ts).
    { unfold h'. rewrite !Header_Get_Set_ne by congruence. apply Header_Get_Set_eq. }
    assert (Hget_ct : Header_Get h' "Content-Type"
                      = Header_Get (Request.Header r) "Content-Type").
    { unfold h'. now rewrite !Header_Get_Set_ne by congruence. }
    assert (Hget_sg : Header_Get h' HeadKeySign = hash ft).
    { unfold h'. apply Header_Get_Set_eq. }
    rewrite ValidateRequest_unfold. cbv zeta.
    cbn [Request.Header Request.with_Header].
    rewrite Hget_ts, Hparse, (not_expired s now1 t Hfresh).
    rewrite (buildSignature_unfold s now1 _ _ body post
               (getPOSTParams_again r r1 body post h' Hp Hget_ct)).
    cbv zeta. cbn [Request.Header Request.with_Header Request.URL Sign].
    unfold signingTimestamp. rewrite Hget_ts, (ParseInt_nonempty ts t Hparse).
    assert (Hq : getGETParams (Request.with_Header r1 h') = getGETParams r).
    { unfold getGETParams. cbn [Request.URL Request.with_Header]. now rewrite Hu. }
    rewrite Hq, Hu. fold ft. rewrite Hget_sg, String.eqb_refl. reflexivity. }
  split; [exact Hgen |].
  intros Habs Hnow Hfresh.
  apply (Hgen now0).
  - rewrite (SignRequest_Timestamp _ _ _ _ _ Hsign), (signingTimestamp_absent _ _ Habs).
    now apply ParseInt_FormatInt.
  - destruct Hfresh as [H | H]; [now left | right]. lia.
Qed.

Lemma ValidateRequest_timestamp_error (s : SignatureBuilder) (now : Z) (r : Request.t)
    (v : Z) (e : Strconv.numerr) :
  Strconv.ParseInt (Header_Get (Request.Header r) HeadKeyTimestamp) = (v, Some e) ->
  ValidateRequest s now r
  = (Some (NumError "ParseInt" (Header_Get (Request.Header r) HeadKeyTimestamp) e), r).
Proof. intros H. rewrite ValidateRequest_unfold. cbv zeta. now rewrite H. Qed.

(** Without a timestamp header the parse of the empty string fails. *)
Lemma ValidateRequest_timestamp_absent (s : SignatureBuilder) (now : Z) (r : Request.t) :
  Header_Get (Request.Header r) HeadKeyTimestamp = "" ->
  ValidateRequest s now r = (Some (NumError "ParseInt" "" Strconv.ErrSyntax), r).
Proof.
  intros H. rewrite (ValidateRequest_timestamp_error s now r 0 Strconv.ErrSyntax).
  - now rewrite H.
  - now rewrite H.
Qed.

(** No later step reports an expired timestamp. *)
Lemma buildSignature_not_expired_error (s : SignatureBuilder) (now : Z) (r : Request.t) :
  snd (fst (buildSignatureFromIncomeRequest s now r)) <> Some (Errorf "timestamp expired").
Proof.
  unfold buildSignatureFromIncomeRequest, getPOSTParams, ReadAll.
  repeat case_match; simplify_eq; cbn;
    try rewrite Sprintf_app by reflexivity; intros H; discriminate H.
Qed.

(** X10. The expiry check of a request whose timestamp parses: while
    [now - timestamp] stays within [int64], the request is refused as expired
    exactly when the window is positive and the timestamp is older than it. *)
Lemma ValidateRequest_expiry (s : SignatureBuilder) (now t : Z) (r : Request.t) :
  Strconv.ParseInt (Header_Get (Request.Header r) HeadKeyTimestamp) = (t, None) ->
  Strconv.in_int64 (now - t) ->
  fst (ValidateRequest s now r) = Some (Errorf "timestamp expired")
  <-> 0 < expiredIn s /\ expiredIn s < now - t.
Proof.
  intros Hparse Hr. rewrite <- (expired_in_range s now t Hr).
  rewrite ValidateRequest_unfold. cbv zeta. rewrite Hparse.
  destruct (expired s now t); [split; reflexivity |].
  split; [| discriminate]. intros H. exfalso.
  pose proof (buildSignature_not_expired_error s now r) as Hne.
  destruct (buildSignatureFromIncomeRequest s now r) as [[[rs|] [err|]] r1];
    cbn in *; try congruence.
  destruct (negb _); cbn in H; congruence.
Qed.

(** ** Bodies stay readable *)

Lemma SignRequest_body (s : SignatureBuilder) (now : Z) (r : Request.t) :
  Request.Body (snd (SignRequest s now r)) = Request.Body (snd (getPOSTParams r)).
Proof.
  unfold SignRequest. rewrite <- (buildSignature_request s now r).
  destruct (buildSignatureFromIncomeRequest s now r) as [[[rs|] [err|]] r1]; reflexivity.
Qed.

Lemma ValidateRequest_body (s : SignatureBuilder) (now : Z) (r : Request.t) :
  Request.Body (snd (ValidateRequest s now r)) = Request.Body r
  \/ Request.Body (snd (ValidateRequest s now r)) = Request.Body (snd (getPOSTParams r)).
Proof.
  rewrite ValidateRequest_unfold. cbv zeta.
  destruct (Strconv.ParseInt _) as [t [e|]]; [now left |].
  destruct (expired s now t); [now left |]. right.
  rewrite <- (buildSignature_request s now r).
  destruct (buildSignatureFromIncomeRequest s now r) as [[[rs|] [err|]] r1];
    try reflexivity.
  destruct (negb _); reflexivity.
Qed.

Lemma ValidateResponse_body (s : SignatureBuilder) (res : Response.t) :
  fault (Response.Body res) = None ->
  Response.Body (snd (ValidateResponse s res)) = NewBuffer (pending (Response.Body res)).
Proof.
  intros Hf. unfold ValidateResponse, ReadAll. rewrite Hf.
  repeat case_match; reflexivity.
Qed.

(** C9. After signing a request, validating a request or validating a
    response, a body that could be read to its end is read again in full and
    yields the bytes it held before, whatever the operation returned. *)
Theorem body_still_readable (s : SignatureBuilder) (now : Z) (r : Request.t)
    (res : Response.t) :
  fault (Request.Body r) = None ->
  fault (Response.Body res) = None ->
  fst (ReadAll (Request.Body (snd (SignRequest s now r))))
    = (pending (Request.Body r), None)
  /\ fst (ReadAll (Request.Body (snd (ValidateRequest s now r))))
    = (pending (Request.Body r), None)
  /\ fst (ReadAll (Response.Body (snd (ValidateResponse s res))))
    = (pending (Response.Body res), None).
Proof.
  intros Hr Hres. split; [| split].
  - rewrite SignRequest_body. now apply getPOSTParams_body.
  - destruct (ValidateRequest_body s now r) as [-> | ->].
    + unfold ReadAll. cbn. now rewrite Hr.
    + now apply getPOSTParams_body.
  - now rewrite (ValidateResponse_body s res Hres).
Qed.

(** ** ValidateResponse *)

Lemma hash_nonempty (text : string) : GoString.is_empty (hash text) = false.
Proof.
  unfold hash, SHA256.Sum256.
  generalize (fold_left SHA256.compress
                (SHA256.chunks (List.length (SHA256.pad (GoString.bytes text))) 64
                               (SHA256.pad (GoString.bytes text)))
                SHA256.init).
  intros st. reflexivity.
Qed.

Lemma ValidateResponse_unfold (s : SignatureBuilder) (res : Response.t) :
  fault (Response.Body res) = None ->
  fst (ValidateResponse s res)
  = let ts := Header_Get (Response.Header res) HeadKeyTimestamp in
    let sign := Header_Get (Response.Header res) HeadKeySign in
    let ak := Header_Get (Response.Header res) HeadKeyAccessKey in
    if GoString.is_empty ts then Some (Errorf "timestamp missing in response header")
    else if GoString.is_empty sign then Some (Errorf "signature missing in response header")
    else if negb (String.eqb ak (accessKey s))
    then Some (Errorf "access key validation failed")
    else if String.eqb (hash (responseText s res ts)) sign then None
    else Some (Errorf "signature validation failed").
Proof.
  intros Hf. unfold ValidateResponse, ReadAll, responseText. rewrite Hf. cbv zeta.
  cbn [Response.Header Response.with_Body Response.Request].
  repeat case_match; reflexivity.
Qed.

Lemma ValidateResponse_read_error (s : SignatureBuilder) (res : Response.t) (e : string) :
  fault (Response.Body res) = Some e ->
  fst (ValidateResponse s res) = Some (ReadError e).
Proof. intros Hf. unfold ValidateResponse, ReadAll. now rewrite Hf. Qed.

(** C5, as the code has it.  With a readable body the checks of
    [ValidateResponse] run in a fixed order and the first that fails gives
    the error: the timestamp field must be there, then the signature field,
    each with an error of its own; the access key is not looked for but
    compared, an absent field reading as the empty string, and a value other
    than the credential's is refused; last the signature is compared with
    the one computed. *)
Theorem ValidateResponse_checks (s : SignatureBuilder) (res : Response.t) :
  fault (Response.Body res) = None ->
  let ts := Header_Get (Response.Header res) HeadKeyTimestamp in
  let sign := Header_Get (Response.Header res) HeadKeySign in
  let ak := Header_Get (Response.Header res) HeadKeyAccessKey in
  (ts = "" ->
     fst (ValidateResponse s res) = Some (Errorf "timestamp missing in response header"))
  /\ (ts <> "" -> sign = "" ->
     fst (ValidateResponse s res) = Some (Errorf "signature missing in response header"))
  /\ (ts <> "" -> sign <> "" -> ak <> accessKey s ->
     fst (ValidateResponse s res) = Some (Errorf "access key validation failed"))
  /\ (ts <> "" -> sign <> "" -> ak = accessKey s -> sign <> hash (responseText s res ts) ->
     fst (ValidateResponse s res) = Some (Errorf "signature validation failed"))
  /\ (ts <> "" -> sign <> "" -> ak = accessKey s -> sign = hash (responseText s res ts) ->
     fst (ValidateResponse s res) = None).
Proof.
  intros Hf ts sign ak. rewrite (ValidateResponse_unfold s res Hf). cbv zeta.
  fold ts sign ak.
  split; [| split; [| split; [| split]]].
  - intros Hts. now rewrite Hts.
  - intros Hts Hsg. apply is_empty_false in Hts. now rewrite Hts, Hsg.
  - intros Hts Hsg Hak. apply is_empty_false in Hts, Hsg. rewrite Hts, Hsg.
    apply String.eqb_neq in Hak. now rewrite Hak.
  - intros Hts Hsg Hak Hne. apply is_empty_false in Hts, Hsg. rewrite Hts, Hsg.
    rewrite Hak, String.eqb_refl. cbn [negb].
    assert (Hneq : String.eqb (hash (responseText s res ts)) sign = false)
      by (apply String.eqb_neq; congruence).
    now rewrite Hneq.
  - intros Hts Hsg Hak Heq. apply is_empty_false in Hts, Hsg. rewrite Hts, Hsg.
    rewrite Hak, String.eqb_refl. cbn [negb]. now rewrite Heq, String.eqb_refl.
Qed.

(** C10. [ValidateResponse] reads no clock and never parses the timestamp:
    whatever non-empty text the timestamp field holds, a response whose
    signature and access-key fields match is accepted, under every expiry
    window of the credential. *)
Theorem ValidateResponse_no_freshness (s : SignatureBuilder) (res : Response.t)
    (ts : string) :
  fault (Response.Body res) = None ->
  Header_Get (Response.Header res) HeadKeyTimestamp = ts ->
  ts <> "" ->
  Header_Get (Response.Header res) HeadKeySign = hash (responseText s res ts) ->
  Header_Get (Response.Header res) HeadKeyAccessKey = accessKey s ->
  fst (ValidateResponse s res) = None
  /\ forall window : Z,
       fst (ValidateResponse (mkSignatureBuilder (accessKey s) (secretKey s) window) res)
       = None.
Proof.
  intros Hf Hts Hne Hsg Hak.
  assert (Hall : forall window : Z,
             fst (ValidateResponse
                    (mkSignatureBuilder (accessKey s) (secretKey s) window) res) = None).
  { intros window. rewrite (ValidateResponse_unfold _ res Hf). cbv zeta.
    cbn [accessKey secretKey]. rewrite Hts, Hsg, Hak.
    apply is_empty_false in Hne. rewrite Hne, hash_nonempty, String.eqb_refl.
    cbn [negb]. unfold responseText. cbn [secretKey]. now rewrite String.eqb_refl. }
  split; [| exact Hall].
  destruct s as [ak sk window]. exact (Hall window).
Qed.

(** * Further properties of the package *)

(** ** hash: 64 lower-case hexadecimal digits *)

Lemma hexdigit_lower (d : Z) : 0 <= d < 16 -> is_hex_lower (SHA256.hexdigit d) = true.
Proof.
  intros Hd.
  assert (Hc : d = 0 \/ d = 1 \/ d = 2 \/ d = 3 \/ d = 4 \/ d = 5 \/ d = 6 \/ d = 7
               \/ d = 8 \/ d = 9 \/ d = 10 \/ d = 11 \/ d = 12 \/ d = 13 \/ d = 14
               \/ d = 15) by lia.
  repeat (destruct Hc as [-> | Hc]; [reflexivity |]). subst d. reflexivity.
Qed.

Lemma hex_shape (bs : list Z) :
  List.Forall (fun b => 0 <= b < 256) bs ->
  String.length (SHA256.hex bs) = (2 * List.length bs)%nat
  /\ all_chars is_hex_lower (SHA256.hex bs) = true.
Proof.
  induction 1 as [|b bs Hb Hbs [IHlen IHall]]; [split; reflexivity |].
  cbn [SHA256.hex String.length all_chars List.length]. split; [lia |].
  rewrite IHall, !hexdigit_lower; [reflexivity | |].
  - apply Z.mod_pos_bound. lia.
  - split; [apply Z.div_pos; lia | apply Z.div_lt_upper_bound; lia].
Qed.

Lemma be_bytes_range (n : nat) (x : Z) :
  List.Forall (fun b => 0 <= b < 256) (SHA256.be_bytes n x).
Proof.
  unfold SHA256.be_bytes. apply List.Forall_forall. intros b Hin.
  apply List.in_map_iff in Hin. destruct Hin as (i & <- & _).
  change 255 with (Z.ones 8). rewrite Z.land_ones by lia.
  apply Z.mod_pos_bound. reflexivity.
Qed.

Lemma digest_shape (st : SHA256.state) :
  List.length (SHA256.digest st) = 32%nat
  /\ List.Forall (fun b => 0 <= b < 256) (SHA256.digest st).
Proof.
  split; [reflexivity |]. unfold SHA256.digest.
  repeat (apply List.Forall_app; split); apply be_bytes_range.
Qed.

(** X1. Whatever the text, [hash] returns 64 characters, each one of
    0-9 and a-f: the signature field always has the shape of a lower-case
    hexadecimal SHA-256 digest. *)
Theorem hash_is_64_hex_digits (text : string) :
  String.length (hash text) = 64%nat /\ all_chars is_hex_lower (hash text) = true.
Proof.
  unfold hash, SHA256.Sum256.
  generalize (fold_left SHA256.compress
                (SHA256.chunks (List.length (SHA256.pad (GoString.bytes text))) 64
                               (SHA256.pad (GoString.bytes text)))
                SHA256.init).
  intros st. destruct (digest_shape st) as [Hlen Hrange].
  destruct (hex_shape _ Hrange) as [Hl Ha]. rewrite Hl, Hlen. split; [reflexivity | exact Ha].
Qed.

(** ** SignResponseBody *)

Lemma FormatInt_nonempty (x : Z) : GoString.is_empty (Strconv.FormatInt x) = false.
Proof.
  unfold Strconv.FormatInt. destruct (x <? 0) eqn:E; [reflexivity |].
  apply Z.ltb_ge in E. destruct (digits_head 19 x "" E) as (d & rest & _ & ->).
  reflexivity.
Qed.

Lemma signingTimestamp_nonempty (now : Z) (h : gmap string (list string)) :
  GoString.is_empty (signingTimestamp now h) = false.
Proof.
  unfold signingTimestamp.
  destruct (GoString.is_empty (Header_Get h HeadKeyTimestamp)) eqn:E; [| exact E].
  apply FormatInt_nonempty.
Qed.

(** X2. [SignResponseBody] never fails and fills all four fields: the access
    key is the credential's, the timestamp is the decimal text of the clock
    (never empty, and [strconv.ParseInt] reads the clock back from it), the
    text signed is path, body, timestamp and secret with nothing in between,
    and the signature is its hash.  The expiry window plays no part. *)
Theorem SignResponseBody_result (s : SignatureBuilder) (now : Z) (reqPath body : string) :
  let rs := fst (SignResponseBody s now reqPath body) in
  snd (SignResponseBody s now reqPath body) = None
  /\ AccessKey rs = accessKey s
  /\ Timestamp rs <> ""
  /\ (Strconv.in_int64 now -> Strconv.ParseInt (Timestamp rs) = (now, None))
  /\ FinalText rs = reqPath +:+ body +:+ Timestamp rs +:+ secretKey s
  /\ Sign rs = hash (FinalText rs)
  /\ (forall window : Z,
        SignResponseBody (mkSignatureBuilder (accessKey s) (secretKey s) window)
                         now reqPath body
        = SignResponseBody s now reqPath body).
Proof.
  cbv zeta. unfold SignResponseBody. cbn [fst snd AccessKey Timestamp FinalText Sign].
  rewrite buildParamsSignatureText_empty.
  split; [reflexivity |]. split; [reflexivity |]. split.
  { apply is_empty_false, FormatInt_nonempty. }
  split; [apply ParseInt_FormatInt |]. split; [reflexivity |]. split; reflexivity.
Qed.

(** X3. What [SignResponseBody] returns validates: a response to a request
    of that path, with that body and with the three fields of the result in
    its header, is accepted by [ValidateResponse] under the same credential,
    however much later. *)
Theorem SignResponseBody_then_ValidateResponse (s : SignatureBuilder) (now : Z)
    (reqPath body : string) (res : Response.t) :
  let rs := fst (SignResponseBody s now reqPath body) in
  fault (Response.Body res) = None ->
  pending (Response.Body res) = body ->
  Url.Path (Request.URL (Response.Request res)) = reqPath ->
  Header_Get (Response.Header res) HeadKeyTimestamp = Timestamp rs ->
  Header_Get (Response.Header res) HeadKeySign = Sign rs ->
  Header_Get (Response.Header res) HeadKeyAccessKey = AccessKey rs ->
  fst (ValidateResponse s res) = None.
Proof.
  cbv zeta. unfold SignResponseBody. cbn [fst Timestamp Sign AccessKey].
  intros Hf Hbody Hpath Hts Hsg Hak.
  rewrite (ValidateResponse_unfold s res Hf). cbv zeta.
  rewrite Hts, Hsg, Hak, FormatInt_nonempty, hash_nonempty, String.eqb_refl.
  cbn [negb]. unfold responseText. rewrite Hbody, Hpath. now rewrite String.eqb_refl.
Qed.

(** ** getGETParams and getPOSTParams *)

(** X12. [getGETParams] keeps, for each key of the query string, the first
    of its values and nothing else: a key is in the result exactly when the
    query gives it at least one value, and the result holds the first. *)
Theorem getGETParams_first_value (r : Request.t) (k v : string) :
  getGETParams r !! k = Some v
  <-> exists vs, URL_Query (Request.URL r) !! k = Some (v :: vs).
Proof.
  rewrite getGETParams_lookup.
  destruct (URL_Query (Request.URL r) !! k) as [[|v0 vs]|]; cbn; split.
  - discriminate.
  - intros (vs & Hvs). discriminate.
  - intros H. exists vs. congruence.
  - intros (vs' & Hvs). congruence.
  - discriminate.
  - intros (vs & Hvs). discriminate.
Qed.

(** Extraction reads the header through the content type only. *)
Lemma getPOSTParams_header_ext (r : Request.t) (h : gmap string (list string)) :
  Header_Get h "Content-Type" = Header_Get (Request.Header r) "Content-Type" ->
  getPOSTParams (Request.with_Header r h)
  = (fst (getPOSTParams r), Request.with_Header (snd (getPOSTParams r)) h).
Proof.
  intros Hct. unfold getPOSTParams, ReadAll.
  cbn [Request.Header Request.with_Header Request.Body]. rewrite Hct.
  repeat case_match; simplify_eq; reflexivity.
Qed.

(** X13. The failures of [getPOSTParams], in the order the code meets them.
    A content type that does not parse is reported before the body is
    touched: the request comes back as it was.  A body that cannot be read
    is reported next, and is left consumed, not restored.  Once the body is
    read it is put back whatever follows, also when the form does not parse
    or the content type is not supported; and every failure returns an empty
    body text and no parameters. *)
Theorem getPOSTParams_failures (r : Request.t) :
  (forall mt e, ParseMediaType (contentTypeOf r) = (mt, Some e) ->
     getPOSTParams r
     = (("", ∅, Some (Errorf ("failed to parse content type: " +:+ e))), r))
  /\ (forall mt e, ParseMediaType (contentTypeOf r) = (mt, None) ->
        fault (Request.Body r) = Some e ->
        getPOSTParams r
        = (("", ∅, Some (Errorf ("failed to read request body: " +:+ e))),
           Request.with_Body r (mkReader "" (Some e))))
  /\ (forall mt, ParseMediaType (contentTypeOf r) = (mt, None) ->
        fault (Request.Body r) = None ->
        snd (getPOSTParams r) = Request.with_Body r (NewBuffer (pending (Request.Body r))))
  /\ (forall e, snd (fst (getPOSTParams r)) = Some e ->
        fst (fst (getPOSTParams r)) = ("", ∅)).
Proof.
  unfold contentTypeOf. split; [| split; [| split]].
  - intros mt e H. unfold getPOSTParams. now rewrite H.
  - intros mt e H Hf. unfold getPOSTParams, ReadAll. now rewrite H, Hf.
  - intros mt H Hf. unfold getPOSTParams, ReadAll. rewrite H, Hf.
    repeat case_match; reflexivity.
  - intros e. unfold getPOSTParams, ReadAll.
    repeat case_match; cbn; intros; simplify_eq; reflexivity.
Qed.

(** ** Signing a request *)

Lemma mergeParams_empty (queryParams : gmap string string) :
  mergeParams queryParams ∅ = queryParams.
Proof. rewrite mergeParams_union. apply (left_id_L ∅ (∪)). Qed.

(** X14. A JSON request is signed over its raw body and the query-string
    parameters: the text signed is the path, the canonical text of the query
    parameters, the body bytes as they are, the timestamp and the secret. *)
Theorem buildSignature_json (s : SignatureBuilder) (now : Z) (r : Request.t) (mt : string) :
  ParseMediaType (contentTypeOf r) = (mt, None) ->
  GoString.Contains mt "application/json" = true ->
  fault (Request.Body r) = None ->
  exists rs,
    fst (buildSignatureFromIncomeRequest s now r) = (Some rs, None)
    /\ FinalText rs
       = Url.Path (Request.URL r)
         +:+ pairsText (getGETParams r) (sort_Strings (map_to_list (getGETParams r)).*1)
         +:+ pending (Request.Body r)
         +:+ signingTimestamp now (Request.Header r) +:+ secretKey s
    /\ Sign rs = hash (FinalText rs).
Proof.
  intros Hmt Hjson Hf.
  assert (Hp : getPOSTParams r
               = ((pending (Request.Body r), ∅, None),
                  Request.with_Body r (NewBuffer (pending (Request.Body r))))).
  { unfold contentTypeOf in Hmt. unfold getPOSTParams, ReadAll.
    now rewrite Hmt, Hf, Hjson. }
  rewrite (buildSignature_unfold s now r _ _ _ Hp). cbv zeta.
  eexists. split; [reflexivity |]. cbn [FinalText Sign]. split; [| reflexivity].
  rewrite mergeParams_empty. unfold buildParamsSignatureText.
  rewrite buildParamsSignatureText_ranged_eq. now rewrite !append_assoc.
Qed.

(** X5. [SignRequest] fails exactly when extraction fails, with that error
    and no result, and then it has set no header field: the header is the
    one the request came with. *)
Theorem SignRequest_failure (s : SignatureBuilder) (now : Z) (r : Request.t) :
  snd (fst (SignRequest s now r)) = snd (fst (getPOSTParams r))
  /\ (snd (fst (SignRequest s now r)) = None <-> is_Some (fst (fst (SignRequest s now r))))
  /\ (forall e, snd (fst (SignRequest s now r)) = Some e ->
        Request.Header (snd (SignRequest s now r)) = Request.Header r).
Proof.
  destruct (getPOSTParams_frame r) as [Hh _].
  unfold SignRequest, buildSignatureFromIncomeRequest.
  destruct (getPOSTParams r) as [[[body post] [err|]] r1]; cbn in *.
  - split; [reflexivity |]. split.
    + split; [discriminate | intros [x Hx]; discriminate].
    + intros e _. exact Hh.
  - split; [reflexivity |]. split.
    + split; [eauto | reflexivity].
    + intros e He. discriminate.
Qed.

(** X16. With three distinct field names, the header of a signed request
    reads back what was signed: the timestamp field gives the timestamp of
    the result, the signature field its signature, and the access-key field
    the credential's identifier (which the result itself does not carry). *)
Theorem SignRequest_read_back (s : SignatureBuilder) (now : Z) (r r' : Request.t)
    (rs : SignatureResult) :
  NoDup [CanonicalMIMEHeaderKey HeadKeyTimestamp; CanonicalMIMEHeaderKey HeadKeySign;
         CanonicalMIMEHeaderKey HeadKeyAccessKey] ->
  SignRequest s now r = ((Some rs, None), r') ->
  Header_Get (Request.Header r') HeadKeyTimestamp = Timestamp rs
  /\ Header_Get (Request.Header r') HeadKeySign = Sign rs
  /\ Header_Get (Request.Header r') HeadKeyAccessKey = accessKey s
  /\ Request.URL r' = Request.URL r.
Proof.
  intros Hnd H. rewrite !NoDup_cons, !not_elem_of_cons in Hnd.
  destruct Hnd as ((H1 & H2 & _) & (H3 & _) & _).
  destruct (SignRequest_ok_inv _ _ _ _ _ H) as (r1 & Hb & ->).
  destruct (buildSignature_ok_inv _ _ _ _ _ Hb) as (body & post & Hp).
  destruct (getPOSTParams_frame r) as [_ Hu]. rewrite Hp in Hu. cbn [snd] in Hu.
  cbn [Request.Header Request.with_Header Request.URL].
  destruct (signed_header_lookups (Request.Header r1) (Timestamp rs) (accessKey s) (Sign rs)
              H1 H2 H3) as (Lts & Lak & Lsg).
  cbv zeta in Lts, Lak, Lsg. unfold Header_Get. rewrite Lts, Lak, Lsg. auto.
Qed.

(** X4. Signing is idempotent: [SignRequest] on a request it has signed
    returns the same result and leaves the request as it is, whatever the
    clock reads by then.  The timestamp of the first signature is kept, not
    renewed. *)
Theorem SignRequest_again (s : SignatureBuilder) (now0 now1 : Z) (r r' : Request.t)
    (rs : SignatureResult) :
  NoDup [CanonicalMIMEHeaderKey HeadKeyTimestamp; CanonicalMIMEHeaderKey HeadKeySign;
         CanonicalMIMEHeaderKey HeadKeyAccessKey; CanonicalMIMEHeaderKey "Content-Type"] ->
  SignRequest s now0 r = ((Some rs, None), r') ->
  SignRequest s now1 r' = ((Some rs, None), r').
Proof.
  intros Hnd Hsign.
  destruct (distinct4 _ _ _ _ Hnd) as (Hts_sg & Hts_ak & Hts_ct & Hsg_ak & Hsg_ct & Hak_ct).
  destruct (SignRequest_ok_inv _ _ _ _ _ Hsign) as (r1 & Hb & ->).
  destruct (buildSignature_ok_inv _ _ _ _ _ Hb) as (body & post & Hp).
  rewrite (buildSignature_unfold s now0 r r1 body post Hp) in Hb.
  cbv zeta in Hb. simplify_eq. cbn [Timestamp Sign] in *.
  destruct (getPOSTParams_frame r) as [Hh Hu]. rewrite Hp in Hh, Hu. cbn [snd] in Hh, Hu.
  rewrite Hh.
  set (ts := signingTimestamp now0 (Request.Header r)) in *.
  set (ft := Url.Path (Request.URL r)
             +:+ buildParamsSignatureText (mergeParams (getGETParams r) post) body
             +:+ ts +:+ secretKey s).
  destruct (signed_header_lookups (Request.Header r) ts (accessKey s) (hash ft)
              Hts_sg Hts_ak Hsg_ak) as (Lts & Lak & Lsg).
  cbv zeta in Lts, Lak, Lsg.
  set (h' := Header_Set
               (Header_Set (Header_Set (Request.Header r) HeadKeyTimestamp ts)
                           HeadKeyAccessKey (accessKey s))
               HeadKeySign (hash ft)) in *.
  assert (Hget_ts : Header_Get h' HeadKeyTimestamp = ts)
    by (unfold Header_Get; now rewrite Lts).
  assert (Hget_ct : Header_Get h' "Content-Type"
                    = Header_Get (Request.Header r) "Content-Type").
  { unfold h'. now rewrite !Header_Get_Set_ne by congruence. }
  unfold SignRequest.
  rewrite (buildSignature_unfold s now1 _ _ body post
             (getPOSTParams_again r r1 body post h' Hp Hget_ct)).
  cbv zeta. cbn [Request.Header Request.with_Header Request.URL Timestamp Sign].
  assert (Hst : signingTimestamp now1 h' = ts).
  { pose proof (signingTimestamp_nonempty now0 (Request.Header r)) as Hne.
    fold ts in Hne. unfold signingTimestamp at 1. now rewrite Hget_ts, Hne. }
  rewrite !Hst.
  assert (Hq : getGETParams (Request.with_Header r1 h') = getGETParams r).
  { unfold getGETParams. cbn [Request.URL Request.with_Header]. now rewrite Hu. }
  rewrite Hq, Hu. fold ft.
  assert (Hsame : Header_Set (Header_Set (Header_Set h' HeadKeyTimestamp ts)
                                         HeadKeyAccessKey (accessKey s))
                             HeadKeySign (hash ft) = h').
  { unfold Header_Set at 1 2 3.
    rewrite (insert_id h' _ _ Lts), (insert_id h' _ _ Lak). now apply insert_id. }
  rewrite Hsame. reflexivity.
Qed.

(** ** The canonical text has no delimiters *)

Lemma sort_Strings_sorted_id (l keys : list string) :
  Permutation l keys -> StronglySorted string_le keys -> sort_Strings l = keys.
Proof.
  intros Hp Hs. apply sorted_perm_unique; [apply sort_Strings_sorted | exact Hs |].
  now rewrite <- (sort_Strings_perm l).
Qed.

Lemma buildParamsSignatureText_keys (params : gmap string string) (keys : list string)
    (body : string) :
  Permutation (map_to_list params).*1 keys -> StronglySorted string_le keys ->
  buildParamsSignatureText params body = pairsText params keys +:+ body.
Proof.
  intros Hp Hs. unfold buildParamsSignatureText.
  rewrite buildParamsSignatureText_ranged_eq. now rewrite (sort_Strings_sorted_id _ _ Hp Hs).
Qed.

(** X9. The canonical text does not tell its parts apart.  Two parameters
    [a=v] and [b=w] with [a] before [b] give the same text as the single
    parameter [a] with the value [v] followed by [b=w]; and a parameter
    gives the same text as no parameter and a body that starts with the
    pair.  Different parameter sets can so carry the same signature. *)
Theorem buildParamsSignatureText_collision (a b v w body : string) :
  string_lt a b ->
  buildParamsSignatureText (<[a := v]> (<[b := w]> ∅)) body
  = buildParamsSignatureText (<[a := v +:+ b +:+ "=" +:+ w]> ∅) body
  /\ buildParamsSignatureText (<[a := v]> ∅) body
     = buildParamsSignatureText ∅ (a +:+ "=" +:+ v +:+ body).
Proof.
  intros Hlt.
  assert (Hne : a <> b) by (intros ->; exact (string_lt_irrefl b Hlt)).
  assert (Hone : forall x : string, StronglySorted string_le [a]).
  { intros _. repeat constructor. }
  assert (Hsingle : forall x : string,
             buildParamsSignatureText (<[a := x]> ∅) body = a +:+ "=" +:+ x +:+ body).
  { intros x. rewrite (buildParamsSignatureText_keys _ [a]); [| | apply (Hone x)].
    - unfold pairsText. cbn [List.map fold_right]. rewrite lookup_insert_eq. cbn [default].
      now rewrite append_nil_r, !append_assoc.
    - rewrite map_to_list_insert by apply lookup_empty.
      now rewrite map_to_list_empty. }
  split.
  - rewrite Hsingle.
    rewrite (buildParamsSignatureText_keys _ [a; b]).
    + unfold pairsText. cbn [List.map fold_right].
      rewrite lookup_insert_eq, lookup_insert_ne, lookup_insert_eq by exact Hne.
      cbn [default]. now rewrite append_nil_r, !append_assoc.
    + rewrite map_to_list_insert by (rewrite lookup_insert_ne by congruence; apply lookup_empty).
      rewrite map_to_list_insert by apply lookup_empty.
      now rewrite map_to_list_empty.
    + constructor; [repeat constructor |].
      constructor; [| constructor]. apply string_le_cases. now left.
  - rewrite Hsingle. now rewrite buildParamsSignatureText_empty.
Qed.

(** ** ValidateRequest *)

Lemma ValidateRequest_request (s : SignatureBuilder) (now : Z) (r : Request.t) :
  snd (ValidateRequest s now r) = r
  \/ snd (ValidateRequest s now r) = snd (getPOSTParams r).
Proof.
  rewrite ValidateRequest_unfold. cbv zeta.
  destruct (Strconv.ParseInt _) as [t [e|]]; [now left |].
  destruct (expired s now t); [now left |]. right.
  rewrite <- (buildSignature_request s now r).
  destruct (buildSignatureFromIncomeRequest s now r) as [[[rs|] [err|]] r1];
    try reflexivity.
  destruct (negb _); reflexivity.
Qed.

(** X6. [ValidateRequest] changes nothing of the request but its body
    reader: header and URL come back as they were; and a request refused for
    its timestamp (one that does not parse, or an expired one) comes back
    untouched, its body not read. *)
Theorem ValidateRequest_frame (s : SignatureBuilder) (now : Z) (r : Request.t) :
  Request.Header (snd (ValidateRequest s now r)) = Request.Header r
  /\ Request.URL (snd (ValidateRequest s now r)) = Request.URL r
  /\ (forall e, snd (Strconv.ParseInt (Header_Get (Request.Header r) HeadKeyTimestamp))
                = Some e ->
        snd (ValidateRequest s now r) = r)
  /\ (fst (ValidateRequest s now r) = Some (Errorf "timestamp expired") ->
        snd (ValidateRequest s now r) = r).
Proof.
  destruct (getPOSTParams_frame r) as [Hh Hu].
  split; [| split; [| split]].
  - destruct (ValidateRequest_request s now r) as [-> | ->]; [reflexivity | exact Hh].
  - destruct (ValidateRequest_request s now r) as [-> | ->]; [reflexivity | exact Hu].
  - intros e He. rewrite ValidateRequest_unfold. cbv zeta.
    destruct (Strconv.ParseInt _) as [t [e'|]]; [reflexivity | discriminate].
  - rewrite ValidateRequest_unfold. cbv zeta.
    destruct (Strconv.ParseInt _) as [t [e'|]]; [reflexivity |].
    destruct (expired s now t); [reflexivity |].
    pose proof (buildSignature_not_expired_error s now r) as Hne.
    destruct (buildSignatureFromIncomeRequest s now r) as [[[rs|] [err|]] r1];
      cbn in *; try congruence.
    destruct (negb _); cbn; congruence.
Qed.

(** X7. Past the timestamp checks and the extraction, [ValidateRequest]
    accepts a request exactly when its signature field is the hash of path,
    canonical text of the merged parameters and the body, timestamp field and
    secret; any other signature is refused as a signature mismatch. *)
Theorem ValidateRequest_accepts_iff (s : SignatureBuilder) (now t : Z) (r r1 : Request.t)
    (body : string) (post : gmap string string) :
  Strconv.ParseInt (Header_Get (Request.Header r) HeadKeyTimestamp) = (t, None) ->
  expired s now t = false ->
  getPOSTParams r = ((body, post, None), r1) ->
  let text :=
    Url.Path (Request.URL r)
    +:+ buildParamsSignatureText (post ∪ getGETParams r) body
    +:+ Header_Get (Request.Header r) HeadKeyTimestamp +:+ secretKey s in
  (fst (ValidateRequest s now r) = None
   <-> Header_Get (Request.Header r) HeadKeySign = hash text)
  /\ (Header_Get (Request.Header r) HeadKeySign <> hash text ->
      fst (ValidateRequest s now r) = Some (Errorf "signature validation failed")).
Proof.
  intros Hparse Hexp Hp. cbv zeta.
  destruct (getPOSTParams_frame r) as [Hh _]. rewrite Hp in Hh. cbn [snd] in Hh.
  rewrite ValidateRequest_unfold. cbv zeta. rewrite Hparse, Hexp.
  rewrite (buildSignature_unfold s now r r1 body post Hp). cbv zeta. cbn [Sign].
  unfold signingTimestamp. rewrite (ParseInt_nonempty _ _ Hparse).
  rewrite mergeParams_union, Hh.
  set (text := Url.Path (Request.URL r) +:+ _).
  destruct (String.eqb_spec (hash text) (Header_Get (Request.Header r) HeadKeySign))
    as [Heq | Hneq]; cbn.
  - split; [split; [congruence | reflexivity] | congruence].
  - split; [split; [discriminate | congruence] | reflexivity].
Qed.

Lemma buildSignature_header_ext (s s' : SignatureBuilder) (now : Z) (r : Request.t)
    (h : gmap string (list string)) :
  secretKey s' = secretKey s ->
  Header_Get h "Content-Type" = Header_Get (Request.Header r) "Content-Type" ->
  Header_Get h HeadKeyTimestamp = Header_Get (Request.Header r) HeadKeyTimestamp ->
  buildSignatureFromIncomeRequest s' now (Request.with_Header r h)
  = (fst (buildSignatureFromIncomeRequest s now r),
     Request.with_Header (snd (buildSignatureFromIncomeRequest s now r)) h).
Proof.
  intros Hsk Hct Hts. destruct (getPOSTParams_frame r) as [Hh Hu].
  unfold buildSignatureFromIncomeRequest.
  rewrite (getPOSTParams_header_ext r h Hct).
  assert (Hq : getGETParams (Request.with_Header r h) = getGETParams r) by reflexivity.
  rewrite Hq.
  destruct (getPOSTParams r) as [[[body post] [err|]] r1]; cbn [fst snd] in *;
    [reflexivity |].
  cbn [Request.Header Request.with_Header Request.URL]. now rewrite Hts, Hh, Hsk.
Qed.

(** X8. [ValidateRequest] does not look at the access key: the outcome is
    the same under a credential with another identifier (same secret and
    window), and whatever the access-key field of the request holds. *)
Theorem ValidateRequest_ignores_access_key (s : SignatureBuilder) (now : Z) (r : Request.t)
    (ak value : string) :
  NoDup [CanonicalMIMEHeaderKey HeadKeyTimestamp; CanonicalMIMEHeaderKey HeadKeySign;
         CanonicalMIMEHeaderKey HeadKeyAccessKey; CanonicalMIMEHeaderKey "Content-Type"] ->
  fst (ValidateRequest (mkSignatureBuilder ak (secretKey s) (expiredIn s)) now
         (Request.with_Header r (Header_Set (Request.Header r) HeadKeyAccessKey value)))
  = fst (ValidateRequest s now r).
Proof.
  intros Hnd.
  destruct (distinct4 _ _ _ _ Hnd) as (Hts_sg & Hts_ak & Hts_ct & Hsg_ak & Hsg_ct & Hak_ct).
  set (h := Header_Set (Request.Header r) HeadKeyAccessKey value).
  assert (Hts : Header_Get h HeadKeyTimestamp = Header_Get (Request.Header r) HeadKeyTimestamp)
    by (unfold h; now rewrite Header_Get_Set_ne by congruence).
  assert (Hsg : Header_Get h HeadKeySign = Header_Get (Request.Header r) HeadKeySign)
    by (unfold h; now rewrite Header_Get_Set_ne by congruence).
  assert (Hct : Header_Get h "Content-Type" = Header_Get (Request.Header r) "Content-Type")
    by (unfold h; now rewrite Header_Get_Set_ne by congruence).
  rewrite !ValidateRequest_unfold. cbv zeta.
  cbn [Request.Header Request.with_Header]. rewrite Hts.
  destruct (Strconv.ParseInt _) as [t [e|]]; [reflexivity |].
  unfold expired. cbn [expiredIn].
  destruct (_ && _); [reflexivity |].
  rewrite (buildSignature_header_ext s (mkSignatureBuilder ak (secretKey s) (expiredIn s))
             now r h eq_refl Hct Hts).
  assert (Hr1 : Request.Header (snd (buildSignatureFromIncomeRequest s now r))
                = Request.Header r).
  { rewrite buildSignature_request. apply getPOSTParams_frame. }
  destruct (buildSignatureFromIncomeRequest s now r) as [[[rs|] [err|]] r1];
    cbn [fst snd Request.Header Request.with_Header] in *; try reflexivity.
  rewrite Hsg, Hr1. destruct (negb _); reflexivity.
Qed.

Lemma ParseUint_loop_not_decimal (cs : string) :
  all_chars is_decimal cs = false ->
  forall n,
    Strconv.ParseUint_loop cs n = (0, Some Strconv.ErrSyntax)
    \/ Strconv.ParseUint_loop cs n = (Strconv.maxUint64, Some Strconv.ErrRange).
Proof.
  induction cs as [|c cs IH]; [discriminate |].
  cbn [all_chars Strconv.ParseUint_loop]. unfold is_decimal at 1. cbv zeta.
  intros H n.
  destruct ((48 <=? Z.of_N (N_of_ascii c)) && (Z.of_N (N_of_ascii c) <=? 57));
    [| now left].
  cbn [andb] in H.
  destruct (Strconv.cutoff10 <=? n); [now right |].
  destruct (_ || _); [now right |]. now apply IH.
Qed.

Lemma ParseUint_not_decimal (cs : string) :
  negb (GoString.is_empty cs) && all_chars is_decimal cs = false ->
  Strconv.ParseUint cs = (0, Some Strconv.ErrSyntax)
  \/ Strconv.ParseUint cs = (Strconv.maxUint64, Some Strconv.ErrRange).
Proof.
  destruct cs as [|c cs]; [now left |]. cbn [GoString.is_empty negb andb].
  intros H. unfold Strconv.ParseUint. now apply ParseUint_loop_not_decimal.
Qed.

Lemma ParseInt_not_decimal (ts : string) :
  is_decimal_text ts = false -> snd (Strconv.ParseInt ts) <> None.
Proof.
  unfold is_decimal_text, Strconv.ParseInt.
  destruct ts as [|c0 rest]; [discriminate |]. cbv zeta.
  destruct (Ascii.eqb c0 "+" || Ascii.eqb c0 "-") eqn:Esign; intros H.
  - destruct (ParseUint_not_decimal rest H) as [-> | ->]; [discriminate |].
    destruct (Ascii.eqb c0 "-"); discriminate.
  - destruct (ParseUint_not_decimal (String c0 rest) H) as [-> | ->]; [discriminate |].
    destruct (Ascii.eqb c0 "-"); discriminate.
Qed.

(** X15. A timestamp field that is not a run of decimal digits after at
    most one sign (an absent or empty field, a space, a fraction, an
    underscore) is refused at the parse by [strconv]'s error: nothing else
    of the request is examined, and the request comes back untouched. *)
Theorem ValidateRequest_timestamp_malformed (s : SignatureBuilder) (now : Z) (r : Request.t) :
  is_decimal_text (Header_Get (Request.Header r) HeadKeyTimestamp) = false ->
  exists e,
    ValidateRequest s now r
    = (Some (NumError "ParseInt" (Header_Get (Request.Header r) HeadKeyTimestamp) e), r).
Proof.
  intros H. apply ParseInt_not_decimal in H.
  rewrite ValidateRequest_unfold. cbv zeta.
  destruct (Strconv.ParseInt _) as [t [e|]]; [| now cbn in H].
  now exists e.
Qed.

Lemma ParseInt_range (ts : string) (t : Z) :
  Strconv.ParseInt ts = (t, None) -> Strconv.in_int64 t.
Proof.
  unfold Strconv.ParseInt. destruct ts as [|c0 rest]; [discriminate |]. cbv zeta.
  intros Hp.
  destruct (Strconv.ParseUint _) as [un [[|]|]]; [discriminate | |];
    repeat case_match; simplify_eq; apply wrap64_range.
Qed.

Lemma buildSignature_secret_only (s s' : SignatureBuilder) (now : Z) (r : Request.t) :
  secretKey s' = secretKey s ->
  buildSignatureFromIncomeRequest s' now r = buildSignatureFromIncomeRequest s now r.
Proof. intros H. unfold buildSignatureFromIncomeRequest. now rewrite H. Qed.

(** X11. The expiry check is lost on timestamps too far in the past: when
    the clock is not negative and [now - timestamp] is 2^63 or more, the
    [int64] difference wraps around to a negative number, the request is
    never refused as expired, and [ValidateRequest] returns what it returns
    with the expiry check switched off. *)
Theorem ValidateRequest_expiry_wraps (s : SignatureBuilder) (now t : Z) (r : Request.t) :
  Strconv.ParseInt (Header_Get (Request.Header r) HeadKeyTimestamp) = (t, None) ->
  0 <= now < 2 ^ 63 ->
  2 ^ 63 <= now - t ->
  Strconv.sub64 now t = now - t - 2 ^ 64
  /\ fst (ValidateRequest s now r) <> Some (Errorf "timestamp expired")
  /\ ValidateRequest s now r
     = ValidateRequest (mkSignatureBuilder (accessKey s) (secretKey s) 0) now r.
Proof.
  intros Hparse Hnow Hold. pose proof (ParseInt_range _ _ Hparse) as Ht.
  unfold Strconv.in_int64 in Ht.
  assert (Hsub : Strconv.sub64 now t = now - t - 2 ^ 64).
  { unfold Strconv.sub64, Strconv.wrap64.
    change (2 ^ 63) with 9223372036854775808 in *.
    change (2 ^ 64) with 18446744073709551616 in *.
    replace (now - t + 9223372036854775808)
      with (now - t - 9223372036854775808 + 1 * 18446744073709551616) by lia.
    rewrite Z.mod_add by lia. rewrite Z.mod_small by lia. lia. }
  assert (Hexp : expired s now t = false).
  { unfold expired. apply andb_false_iff.
    destruct (Z_le_dec (expiredIn s) 0) as [Hle | Hgt];
      [left; apply Z.ltb_ge; lia | right].
    apply Z.ltb_ge. unfold Strconv.int_of_int64. rewrite Hsub.
    rewrite wrap64_small; unfold Strconv.in_int64;
      change (2 ^ 63) with 9223372036854775808 in *;
      change (2 ^ 64) with 18446744073709551616 in *; lia. }
  split; [exact Hsub |].
  assert (Heq : ValidateRequest s now r
                = ValidateRequest (mkSignatureBuilder (accessKey s) (secretKey s) 0) now r).
  { rewrite !ValidateRequest_unfold. cbv zeta. rewrite Hparse, Hexp.
    unfold expired at 1. cbn [expiredIn andb Z.ltb Z.compare].
    now rewrite (buildSignature_secret_only s
                   (mkSignatureBuilder (accessKey s) (secretKey s) 0) now r eq_refl). }
  split; [| exact Heq].
  rewrite ValidateRequest_unfold. cbv zeta. rewrite Hparse, Hexp.
  pose proof (buildSignature_not_expired_error s now r) as Hne.
  destruct (buildSignatureFromIncomeRequest s now r) as [[[rs|] [err|]] r1];
    cbn in *; try congruence.
  destruct (negb _); cbn; congruence.
Qed.

(** ** ValidateResponse *)

(** X17. [ValidateResponse] changes nothing of the response but its body
    reader: the header and the request it answers come back as they were.  A
    body that cannot be read is reported first, by the reader's own error,
    before any header field is looked at, and is left consumed. *)
Theorem ValidateResponse_frame (s : SignatureBuilder) (res : Response.t) :
  Response.Header (snd (ValidateResponse s res)) = Response.Header res
  /\ Response.Request (snd (ValidateResponse s res)) = Response.Request res
  /\ (forall e, fault (Response.Body res) = Some e ->
        ValidateResponse s res
        = (Some (ReadError e), Response.with_Body res (mkReader "" (Some e)))).
Proof.
  unfold ValidateResponse, ReadAll. split; [| split].
  - repeat case_match; reflexivity.
  - repeat case_match; reflexivity.
  - intros e He. now rewrite He.
Qed.

End Properties.

(** * The package's tests and the claims at concrete inputs *)

(** [TestSigRequest]: the signed request validates. *)
Example TestSigRequest :
  fst (Sample.ValidateRequest Sample.sb Sample.t0
         (snd (Sample.SignRequest Sample.sb Sample.t0 Sample.req))) = None.
Proof. vm_compute. reflexivity. Qed.

(** [TestSignResponse]: the signed response validates. *)
Example TestSignResponse : fst (Sample.ValidateResponse Sample.sb Sample.res) = None.
Proof. vm_compute. reflexivity. Qed.

(** The text that is signed in [TestSigRequest], as the specification gives it. *)
Example TestSigRequest_text :
  option_map FinalText (fst (fst (Sample.SignRequest Sample.sb Sample.t0 Sample.req)))
  = Some "/v1/photos/generatea=bd=cdata=a1700000000sk".
Proof. vm_compute. reflexivity. Qed.

Lemma Ref_fields_distinct :
  NoDup [CanonicalMIMEHeaderKey (Env := Ref.env) (HeadKeyTimestamp (Env := Ref.env));
         CanonicalMIMEHeaderKey (Env := Ref.env) (HeadKeySign (Env := Ref.env));
         CanonicalMIMEHeaderKey (Env := Ref.env) (HeadKeyAccessKey (Env := Ref.env));
         CanonicalMIMEHeaderKey (Env := Ref.env) "Content-Type"].
Proof. apply (bool_decide_unpack _). vm_compute. reflexivity. Defined.

(** C1, witness: the test's request, signed at [t0], validates an hour later. *)
Lemma sign_then_validate_witness :
  fst (Sample.ValidateRequest Sample.sb (Sample.t0 + 3600)
         (snd (Sample.SignRequest Sample.sb Sample.t0 Sample.req))) = None.
Proof.
  destruct (Sample.SignRequest Sample.sb Sample.t0 Sample.req) as [[[rs|] [e|]] r'] eqn:H;
    try (vm_compute in H; discriminate H).
  cbn [snd]. unfold Sample.ValidateRequest.
  rewrite (proj2 (sign_then_validate (env := Ref.env) Sample.sb Sample.t0
                    (Sample.t0 + 3600) Sample.req r' rs Ref_fields_distinct H)).
  - reflexivity.
  - reflexivity.
  - vm_compute. split; [discriminate | reflexivity].
  - right. vm_compute. split; discriminate.
Defined.

(** C1, counterexample: a request that already carries a timestamp is signed
    with it, and validating it at once fails when that timestamp is stale. *)
Lemma sign_then_validate_stale :
  option_map Timestamp (fst (fst (Sample.SignRequest Sample.sb Sample.t0 Sample.req_stale)))
  = Some "1600000000"
  /\ fst (Sample.ValidateRequest Sample.sb Sample.t0
            (snd (Sample.SignRequest Sample.sb Sample.t0 Sample.req_stale)))
     = Some (Errorf "timestamp expired").
Proof. vm_compute. split; reflexivity. Qed.
(** C3 at a timestamp older than [int64] subtraction can tell: the request
    carries the timestamp -9223372036854775808, the window is 3600 and the
    clock reads [t0], yet the difference wraps around to a negative number
    and the request passes the expiry check and validates. *)
Lemma ValidateRequest_ancient_timestamp :
  Strconv.ParseInt "-9223372036854775808" = (-9223372036854775808, None)
  /\ expiredIn Sample.sb < Sample.t0 - -9223372036854775808
  /\ Strconv.sub64 Sample.t0 (-9223372036854775808) = -9223372035154775808
  /\ fst (Sample.ValidateRequest Sample.sb Sample.t0
            (snd (Sample.SignRequest Sample.sb Sample.t0 Sample.req_ancient))) = None.
Proof. vm_compute. repeat split; reflexivity. Qed.

(** C3 where no wrap-around occurs: with a window of 3600 a timestamp 3600
    seconds old passes the expiry check, one 3601 seconds old fails it, and
    one from the future passes. *)
Example ValidateRequest_expiry_boundary :
  expired Sample.sb Sample.t0 (Sample.t0 - 3600) = false
  /\ expired Sample.sb Sample.t0 (Sample.t0 - 3601) = true
  /\ expired Sample.sb Sample.t0 (Sample.t0 + 86400) = false
  /\ expired (NewSignatureBuilder "ak" "sk" 0) Sample.t0 0 = false
  /\ expired (NewSignatureBuilder "ak" "sk" (-1)) Sample.t0 0 = false.
Proof. vm_compute. repeat split; reflexivity. Qed.

(** C4 on the test's request: the result of [SignRequest] carries an empty
    access key, where [SignResponseBody] returns the credential's. *)
Lemma SignRequest_AccessKey_test :
  option_map AccessKey (fst (fst (Sample.SignRequest Sample.sb Sample.t0 Sample.req)))
  = Some ""
  /\ accessKey Sample.sb = "ak"
  /\ AccessKey (fst (SignResponseBody Sample.sb Sample.t0 "/v1/photos/generate" "aaaaaaa"))
     = "ak".
Proof. vm_compute. repeat split; reflexivity. Qed.

(** C5, witness: the test's response passes every check. *)
Lemma ValidateResponse_checks_witness :
  fst (Sample.ValidateResponse Sample.sb Sample.res) = None.
Proof.
  pose proof (ValidateResponse_checks (env := Ref.env) Sample.sb Sample.res eq_refl) as H.
  cbv zeta in H. destruct H as (_ & _ & _ & _ & H).
  apply H.
  - vm_compute. discriminate.
  - vm_compute. discriminate.
  - vm_compute. reflexivity.
  - vm_compute. reflexivity.
Defined.

(** C5, counterexample: the access-key field need not be there.  Under a
    credential whose identifier is empty a response without the field is
    accepted; under the test's credential a response without the field is
    refused by the very error that refuses another key, no error of its own. *)
Lemma ValidateResponse_access_key_absent :
  fst (Sample.ValidateResponse (NewSignatureBuilder "" "sk" 3600) Sample.res_no_key) = None
  /\ fst (Sample.ValidateResponse Sample.sb Sample.res_no_key)
     = Some (Errorf "access key validation failed")
  /\ fst (Sample.ValidateResponse Sample.sb Sample.res_other_key)
     = Some (Errorf "access key validation failed").
Proof. vm_compute. repeat split; reflexivity. Qed.

(** X18, witness: a JSON body is taken whole. *)
Lemma getPOSTParams_dispatch_witness :
  fst (Sample.getPOSTParams Sample.req_json) = ("[1,2,3]", ∅, None).
Proof.
  apply (proj1 (proj2 (getPOSTParams_dispatch (env := Ref.env) Sample.req_json
                         "application/json" eq_refl eq_refl))).
  vm_compute. reflexivity.
Defined.

(** Extraction on the test's request, which declares no content type, and
    on a content type the package does not know. *)
Example getPOSTParams_form_and_other :
  fst (Sample.getPOSTParams Sample.req) = ("", Sample.form_params, None)
  /\ fst (Sample.getPOSTParams (Sample.req_with "Content-Type" "Text/Plain; charset=utf-8"))
     = ("", ∅, Some (Errorf "unsupported content type: text/plain")).
Proof. vm_compute. split; reflexivity. Qed.

(** C6. The error for a content type that is neither JSON nor a form does
    not always name it.  The text of the error is built with the media type
    inside the format of [fmt.Errorf], so a [%] in the media type opens a
    verb.  The header [Content-Type: text/%d] is well formed and parses to
    the media type [text/%d]; the error reads [text/%!d(MISSING)], which is
    not the content type declared. *)
Theorem getPOSTParams_unsupported_format :
  Ref.ParseMediaType (contentTypeOf (env := Ref.env) (Sample.req_with "Content-Type" "text/%d"))
  = ("text/%d", None)
  /\ fst (Sample.getPOSTParams (Sample.req_with "Content-Type" "text/%d"))
     = ("", ∅, Some (Errorf "unsupported content type: text/%!d(MISSING)"))
  /\ fst (Sample.getPOSTParams (Sample.req_with "Content-Type" "text/%d"))
     <> ("", ∅, Some (Errorf "unsupported content type: text/%d")).
Proof. vm_compute. repeat split; try reflexivity. discriminate. Qed.

(** C7, witness: the key [a] of the form body wins over the query string's. *)
Lemma buildSignature_merges_params_witness :
  exists (merged : gmap string string) (rs : SignatureResult),
    fst (Sample.buildSignatureFromIncomeRequest Sample.sb Sample.t0 Sample.req_collide)
    = (Some rs, None)
    /\ FinalText rs
       = "/v1/photos/generate" +:+ buildParamsSignatureText merged ""
         +:+ Timestamp rs +:+ "sk"
    /\ Sign rs = hash (FinalText rs)
    /\ merged = Sample.form_params ∪ getGETParams (env := Ref.env) Sample.req_collide
    /\ (forall k v, Sample.form_params !! k = Some v -> merged !! k = Some v)
    /\ (forall k, Sample.form_params !! k = None ->
                  merged !! k = getGETParams (env := Ref.env) Sample.req_collide !! k).
Proof.
  apply (buildSignature_merges_params (env := Ref.env) Sample.sb Sample.t0
           Sample.req_collide Sample.req_collide "" Sample.form_params).
  vm_compute. reflexivity.
Defined.

Example buildSignature_collision_text :
  option_map FinalText
    (fst (fst (Sample.buildSignatureFromIncomeRequest Sample.sb Sample.t0 Sample.req_collide)))
  = Some "/v1/photos/generatea=bd=cdata=a1700000000sk".
Proof. vm_compute. reflexivity. Qed.

(** C8, witness: the test's request with a User-Agent field, signed.  The
    three fields hold the timestamp, the identifier and the signature of the
    text signed, and the User-Agent field is as it was. *)
Lemma SignRequest_headers_witness :
  let h := Request.Header (snd (Sample.SignRequest Sample.sb Sample.t0 Sample.req_agent)) in
  h !! "X-Timestamp" = Some ["1700000000"]
  /\ h !! "X-Access-Key" = Some ["ak"]
  /\ h !! "X-Sign" = Some [hash "/v1/photos/generatea=bd=cdata=a1700000000sk"]
  /\ h !! "User-Agent" = Some ["Go-http-client/1.1"]
  /\ Request.Header Sample.req_agent !! "X-Sign" = None.
Proof.
  cbv zeta.
  destruct (Sample.SignRequest Sample.sb Sample.t0 Sample.req_agent)
    as [[[rs|] [e|]] r'] eqn:H; try (vm_compute in H; discriminate H).
  cbn [snd].
  destruct (SignRequest_headers (env := Ref.env) Sample.sb Sample.t0 Sample.req_agent
              r' rs H) as (_ & _ & _ & _ & _ & Hall & _).
  pose proof H as Hrs. vm_compute in Hrs. injection Hrs as Hrs _.
  rewrite !Hall, <- Hrs. vm_compute. repeat split; reflexivity.
Defined.

Example SignRequest_sets_three_fields :
  let h := Request.Header (snd (Sample.SignRequest Sample.sb Sample.t0 Sample.req_agent)) in
  h !! "X-Timestamp" = Some ["1700000000"]
  /\ h !! "X-Access-Key" = Some ["ak"]
  /\ h !! "X-Sign"
     = Some [hash "/v1/photos/generatea=bd=cdata=a1700000000sk"]
  /\ size h = 4%nat.
Proof. vm_compute. repeat split; reflexivity. Qed.

(** C9, witness: the bodies of the test's request and response. *)
Lemma body_still_readable_witness :
  fst (ReadAll (Request.Body (snd (Sample.SignRequest Sample.sb Sample.t0 Sample.req))))
    = ("a=b&d=c", None)
  /\ fst (ReadAll (Request.Body (snd (Sample.ValidateRequest Sample.sb Sample.t0 Sample.req))))
    = ("a=b&d=c", None)
  /\ fst (ReadAll (Response.Body (snd (Sample.ValidateResponse Sample.sb Sample.res))))
    = ("aaaaaaa", None).
Proof.
  exact (body_still_readable (env := Ref.env) Sample.sb Sample.t0 Sample.req Sample.res
           eq_refl eq_refl).
Defined.

(** C10, witness: a response whose timestamp field reads "yesterday". *)
Lemma ValidateResponse_no_freshness_witness :
  fst (Sample.ValidateResponse Sample.sb Sample.res_odd) = None.
Proof.
  apply (proj1 (ValidateResponse_no_freshness (env := Ref.env) Sample.sb Sample.res_odd
                  "yesterday" eq_refl eq_refl ltac:(discriminate) eq_refl eq_refl)).
Defined.

(** * The models of the library, on known values *)

Example sha256_constants :
  List.length SHA256.K = 64%nat
  /\ nth 0 SHA256.K 0 = 0x428a2f98 /\ nth 63 SHA256.K 0 = 0xc67178f2
  /\ SHA256.va SHA256.init = 0x6a09e667 /\ SHA256.vh SHA256.init = 0x5be0cd19.
Proof. vm_compute. repeat split; reflexivity. Qed.

Example sha256_abc :
  hash "abc" = "ba7816bf8f01cfea414140de5dae2223b00361a396177a9cb410ff61f20015ad".
Proof. vm_compute. reflexivity. Qed.

Example sha256_empty :
  hash "" = "e3b0c44298fc1c149afbf4c8996fb92427ae41e4649b934ca495991b7852b855".
Proof. vm_compute. reflexivity. Qed.

Example sha256_two_blocks :
  hash "abcdbcdecdefdefgefghfghighijhijkijkljklmklmnlmnomnopnopq"
  = "248d6a61d20638b8e5c026930c3e6039a33ce45964ff2167f6ecedd419db06c1".
Proof. vm_compute. reflexivity. Qed.

Example ParseInt_values :
  Strconv.ParseInt "1700000000" = (1700000000, None)
  /\ Strconv.ParseInt "+12" = (12, None)
  /\ Strconv.ParseInt "-9223372036854775808" = (-9223372036854775808, None)
  /\ Strconv.ParseInt "9223372036854775808" = (9223372036854775807, Some Strconv.ErrRange)
  /\ Strconv.ParseInt "" = (0, Some Strconv.ErrSyntax)
  /\ Strconv.ParseInt "-" = (0, Some Strconv.ErrSyntax)
  /\ Strconv.ParseInt "1_000" = (0, Some Strconv.ErrSyntax)
  /\ Strconv.ParseInt " 12" = (0, Some Strconv.ErrSyntax)
  /\ Strconv.ParseInt "yesterday" = (0, Some Strconv.ErrSyntax).
Proof. vm_compute. repeat split; reflexivity. Qed.

Example Sprintf_values :
  Fmt.Sprintf "unsupported content type: text/plain" = "unsupported content type: text/plain"
  /\ Fmt.Sprintf "100%%" = "100%"
  /\ Fmt.Sprintf "hi%d" = "hi%!d(MISSING)"
  /\ Fmt.Sprintf "a%-5.2fb" = "a%!f(MISSING)b"
  /\ Fmt.Sprintf "%[1]d" = "%!d(BADINDEX)"
  /\ Fmt.Sprintf "%*d" = "%!(BADWIDTH)%!d(MISSING)"
  /\ Fmt.Sprintf "%.*d" = "%!(BADPREC)%!d(MISSING)"
  /\ Fmt.Sprintf "50%" = "50%!(NOVERB)".
Proof. vm_compute. repeat split; reflexivity. Qed.

Example FormatInt_values :
  Strconv.FormatInt 1700000000 = "1700000000"
  /\ Strconv.FormatInt 0 = "0"
  /\ Strconv.FormatInt (-42) = "-42"
  /\ Strconv.FormatInt (-9223372036854775808) = "-9223372036854775808".
Proof. vm_compute. repeat split; reflexivity. Qed.

Example CanonicalMIMEHeaderKey_values :
  Ref.CanonicalMIMEHeaderKey "content-type" = "Content-Type"
  /\ Ref.CanonicalMIMEHeaderKey "x-access-KEY" = "X-Access-Key"
  /\ Ref.CanonicalMIMEHeaderKey "not a token" = "not a token".
Proof. vm_compute. repeat split; reflexivity. Qed.

Example ParseQuery_values :
  Ref.ParseQuery "a=b&d=c&a=z&&x=%41+1"
  = (<["a" := ["b"; "z"]]> (<["d" := ["c"]]> (<["x" := ["A 1"]]> ∅)), None)
  /\ snd (Ref.ParseQuery "a=%zz&b=1") = Some "invalid URL escape"
  /\ fst (Ref.ParseQuery "a=%zz&b=1") = <["b" := ["1"]]> ∅
  /\ snd (Ref.ParseQuery "a=1;b=2") = Some "invalid semicolon separator in query".
Proof. vm_compute. repeat split; reflexivity. Qed.

Example ParseMediaType_values :
  Ref.ParseMediaType " Application/JSON ; charset=utf-8" = ("application/json", None)
  /\ Ref.ParseMediaType "application/x-www-form-urlencoded"
     = ("application/x-www-form-urlencoded", None)
  /\ Ref.ParseMediaType "" = ("", Some "mime: no media type")
  /\ Ref.ParseMediaType "a/b/c" = ("", Some "mime: unexpected content after media subtype").
Proof. vm_compute. repeat split; reflexivity. Qed.

(** * The further properties at concrete inputs *)

Lemma Ref_three_fields_distinct :
  NoDup [CanonicalMIMEHeaderKey (Env := Ref.env) (HeadKeyTimestamp (Env := Ref.env));
         CanonicalMIMEHeaderKey (Env := Ref.env) (HeadKeySign (Env := Ref.env));
         CanonicalMIMEHeaderKey (Env := Ref.env) (HeadKeyAccessKey (Env := Ref.env))].
Proof. apply (bool_decide_unpack _). vm_compute. reflexivity. Defined.

(** X3, witness: the response of the package's test. *)
Lemma SignResponseBody_then_ValidateResponse_witness :
  fst (Sample.ValidateResponse Sample.sb Sample.res) = None.
Proof.
  exact (SignResponseBody_then_ValidateResponse (env := Ref.env) Sample.sb Sample.t0
           "/v1/photos/generate" "aaaaaaa" Sample.res
           eq_refl eq_refl eq_refl eq_refl eq_refl eq_refl).
Defined.

(** X4, witness: the test's request, signed again two hours later. *)
Lemma SignRequest_again_witness :
  fst (Sample.SignRequest Sample.sb (Sample.t0 + 7200)
         (snd (Sample.SignRequest Sample.sb Sample.t0 Sample.req)))
  = fst (Sample.SignRequest Sample.sb Sample.t0 Sample.req).
Proof.
  destruct (Sample.SignRequest Sample.sb Sample.t0 Sample.req) as [[[rs|] [e|]] r'] eqn:H;
    try (vm_compute in H; discriminate H).
  cbn [snd fst]. unfold Sample.SignRequest.
  now rewrite (SignRequest_again (env := Ref.env) Sample.sb Sample.t0 (Sample.t0 + 7200)
                 Sample.req r' rs Ref_fields_distinct H).
Defined.

(** X7, witness: the test's request as it is sent is accepted. *)
Lemma ValidateRequest_accepts_iff_witness :
  fst (Sample.ValidateRequest Sample.sb Sample.t0 Sample.req_sent) = None.
Proof.
  apply (proj1 (ValidateRequest_accepts_iff (env := Ref.env) Sample.sb Sample.t0
                  1700000000 Sample.req_sent Sample.req_sent "" Sample.form_params
                  eq_refl eq_refl eq_refl)).
  vm_compute. reflexivity.
Defined.

(** X8, witness: another identifier and another access-key field. *)
Lemma ValidateRequest_ignores_access_key_witness :
  fst (Sample.ValidateRequest (NewSignatureBuilder "someone-else" "sk" 3600) Sample.t0
         (Request.with_Header Sample.req_sent
            (Header_Set (env := Ref.env) (Request.Header Sample.req_sent)
                        "X-Access-Key" "anything")))
  = fst (Sample.ValidateRequest Sample.sb Sample.t0 Sample.req_sent).
Proof.
  exact (ValidateRequest_ignores_access_key (env := Ref.env) Sample.sb Sample.t0
           Sample.req_sent "someone-else" "anything" Ref_fields_distinct).
Defined.

(** X9, witness: the parameters a=1, b=2 and the parameter a=1b=2. *)
Lemma buildParamsSignatureText_collision_witness :
  buildParamsSignatureText (<["a" := "1"]> (<["b" := "2"]> ∅)) ""
  = buildParamsSignatureText (<["a" := "1b=2"]> ∅) "".
Proof.
  exact (proj1 (buildParamsSignatureText_collision "a" "b" "1" "2" "" eq_refl)).
Defined.

(** X10, witness: the request as sent, one second past the window. *)
Lemma ValidateRequest_expiry_witness :
  fst (Sample.ValidateRequest Sample.sb (Sample.t0 + 3601) Sample.req_sent)
  = Some (Errorf "timestamp expired").
Proof.
  apply (proj2 (ValidateRequest_expiry (env := Ref.env) Sample.sb (Sample.t0 + 3601)
                  1700000000 Sample.req_sent eq_refl
                  ltac:(vm_compute; split; [discriminate | reflexivity]))).
  vm_compute. split; reflexivity.
Defined.

(** X11, witness: the timestamp -9223372036854775808. *)
Lemma ValidateRequest_expiry_wraps_witness :
  fst (Sample.ValidateRequest Sample.sb Sample.t0 Sample.req_ancient)
  <> Some (Errorf "timestamp expired").
Proof.
  exact (proj1 (proj2 (ValidateRequest_expiry_wraps (env := Ref.env) Sample.sb Sample.t0
                         (-9223372036854775808) Sample.req_ancient eq_refl
                         ltac:(vm_compute; split; [discriminate | reflexivity])
                         ltac:(vm_compute; discriminate)))).
Defined.

(** X14, witness: the JSON request; the text signed holds the query
    parameter and the raw body. *)
Lemma buildSignature_json_witness :
  option_map FinalText
    (fst (fst (Sample.buildSignatureFromIncomeRequest Sample.sb Sample.t0 Sample.req_json)))
  = Some "/v1/photos/generatedata=a[1,2,3]1700000000sk".
Proof.
  destruct (buildSignature_json (env := Ref.env) Sample.sb Sample.t0 Sample.req_json
              "application/json" eq_refl eq_refl eq_refl) as (rs & Hrs & Hft & _).
  unfold Sample.buildSignatureFromIncomeRequest. rewrite Hrs. cbn [fst option_map].
  rewrite Hft. vm_compute. reflexivity.
Defined.

(** X15, witness: a timestamp with a space before the digits. *)
Lemma ValidateRequest_timestamp_malformed_witness :
  exists e,
    Sample.ValidateRequest Sample.sb Sample.t0 Sample.req_spaced
    = (Some (NumError "ParseInt" " 1700000000" e), Sample.req_spaced).
Proof.
  exact (ValidateRequest_timestamp_malformed (env := Ref.env) Sample.sb Sample.t0
           Sample.req_spaced eq_refl).
Defined.

(** X16, witness: the access-key field of the test's signed request. *)
Lemma SignRequest_read_back_witness :
  Header_Get (env := Ref.env)
    (Request.Header (snd (Sample.SignRequest Sample.sb Sample.t0 Sample.req)))
    "X-Access-Key"
  = "ak".
Proof.
  destruct (Sample.SignRequest Sample.sb Sample.t0 Sample.req) as [[[rs|] [e|]] r'] eqn:H;
    try (vm_compute in H; discriminate H).
  cbn [snd].
  exact (proj1 (proj2 (proj2 (SignRequest_read_back (env := Ref.env) Sample.sb Sample.t0
                                Sample.req r' rs Ref_three_fields_distinct H)))).
Defined.
